(** * mojopi: the route handlers of [src/mojopi/views.py]

  A shallow embedding of the Flask view functions of the package index
  and of the fragment of Python, peewee and the file system they rely
  on, followed by the properties of the handlers.

  Conventions.
  - A text column is an [option string] ([None] is SQL NULL, which
    peewee reads back as Python [None]); a datetime column is an
    [option Z].
  - A table is the list of its rows in the order the database returns
    them.
  - A Python [str] is held as the bytes of its UTF-8 encoding, one
    [ascii] per byte: a character below U+0080 is one byte, below 128;
    any other character is a lead byte from 192 up followed by
    continuation bytes from 128 to 191.  Slicing and [in] on well-formed
    text agree with their bytewise versions. *)

From Stdlib Require Import ZArith String Ascii Permutation DecimalString.
From Stdlib Require OrderedTypeEx.
From stdpp Require Import base tactics option list strings gmap sorting.

Local Open Scope string_scope.
Local Open Scope Z_scope.

(** ** Python values and truth testing *)

Module Py.

(** The values that end up in template contexts and response maps. *)
Inductive pyval : Type :=
| PyNone
| PyStr (s : string)
| PyInt (z : Z)
| PyDatetime (t : Z).

#[global] Instance pyval_eq_dec : EqDecision pyval.
Proof. solve_decision. Defined.

(** Python's truth test, [bool(x)]: what [if x:], [not x], [x and y]
    and [x or y] consult. *)
Class Truthy (A : Type) : Type := truthy : A -> bool.
#[global] Hint Mode Truthy ! : typeclass_instances.
#[global] Arguments truthy {A _} _ : simpl never.

(** [bool(s)] for a [str]: non-empty. *)
#[global] Instance string_truthy : Truthy string :=
  fun s => match s with EmptyString => false | String _ _ => true end.

(** [bool(n)] for an [int]-like value: non-zero. *)
#[global] Instance Z_truthy : Truthy Z := fun z => negb (z =? 0).

(** A value that may be [None]: [None] is false, anything else tests
    as itself. *)
#[global] Instance option_truthy {A} `{Truthy A} : Truthy (option A) :=
  fun o => match o with None => false | Some a => truthy a end.

#[global] Instance pyval_truthy : Truthy pyval :=
  fun v => match v with
           | PyNone => false
           | PyStr s => truthy s
           | PyInt z => truthy z
           | PyDatetime _ => true
           end.

(** [x and y]: [y] when [x] is true, else [x]. *)
Definition py_and {A} `{Truthy A} (x y : A) : A :=
  if truthy x then y else x.

(** A text attribute as a Python value: NULL reads back as [None]. *)
Definition of_text (t : option string) : pyval :=
  match t with None => PyNone | Some s => PyStr s end.

Definition of_datetime (t : option Z) : pyval :=
  match t with None => PyNone | Some z => PyDatetime z end.

End Py.
Export Py.

(** ** Strings: [str.lower], [in], and SQL [LIKE] *)

Module Str.

(** All characters are below U+0080. *)
Fixpoint is_ascii (s : string) : bool :=
  match s with
  | EmptyString => true
  | String c s' => (Nat.ltb (nat_of_ascii c) 128 && is_ascii s')%bool
  end.

(** Lower-casing of a character below U+0080: [A] to [Z] move 32 up. *)
Definition lower_ascii (c : ascii) : ascii :=
  let n := nat_of_ascii c in
  if (Nat.leb 65 n && Nat.leb n 90)%bool then ascii_of_nat (n + 32) else c.

(** The capital letters of the Latin-1 Supplement, U+00C0 to U+00DE
    without the sign U+00D7, are the lead byte 195 followed by a byte
    from 128 to 158 other than 151. *)
Definition latin1_capital (c : ascii) : bool :=
  let n := nat_of_ascii c in
  (Nat.leb 128 n && Nat.leb n 158 && negb (Nat.eqb n 151))%bool.

(** Lower-casing of the byte that follows the lead byte 195: the small
    letter of a capital is 32 above it. *)
Definition lower_latin1 (c : ascii) : ascii :=
  if latin1_capital c then ascii_of_nat (nat_of_ascii c + 32) else c.

(** [s.lower()], on text whose letters lie below U+0100: the letters
    [A] to [Z] and the capitals of the Latin-1 Supplement are replaced
    by their small letters, every other character is kept.  The capitals
    of other scripts, which Python folds as well, are kept here: on
    text with such letters this definition is not [str.lower]. *)
Fixpoint lower (s : string) : string :=
  match s with
  | EmptyString => EmptyString
  | String c s' =>
      if Ascii.eqb c "195" then
        match s' with
        | EmptyString => String c EmptyString
        | String d s'' => String c (String (lower_latin1 d) (lower s''))
        end
      else String (lower_ascii c) (lower s')
  end.

(** [s.startswith(p)] *)
Fixpoint startswith (p s : string) : bool :=
  match p, s with
  | EmptyString, _ => true
  | String _ _, EmptyString => false
  | String a p', String b s' => (Ascii.eqb a b && startswith p' s')%bool
  end.

(** [q in s] for two [str]: [q] occurs in [s] as a contiguous run. *)
Fixpoint contains (q s : string) : bool :=
  (startswith q s ||
   match s with
   | EmptyString => false
   | String _ s' => contains q s'
   end)%bool.

(** The bytes that continue a character begun before them. *)
Definition is_continuation (c : ascii) : bool :=
  let n := nat_of_ascii c in (Nat.leb 128 n && Nat.leb n 191)%bool.

Fixpoint drop_continuation (s : string) : string :=
  match s with
  | EmptyString => EmptyString
  | String c s' => if is_continuation c then drop_continuation s' else s
  end.

(** SQL [LIKE] as SQLite evaluates it: [%] matches any run of
    characters, [_] any one character, with the bytes that continue it,
    and any other character matches itself, where only [A] to [Z] are
    taken for their small letters: SQLite folds no letter from U+0080
    up.  [fuel] bounds the unfolding; every call consumes a byte of the
    pattern or of the string, so [String.length pat + String.length s]
    always suffices. *)
Fixpoint like_fuel (fuel : nat) (pat s : string) : bool :=
  match fuel with
  | O => false
  | S fuel' =>
      match pat with
      | EmptyString =>
          match s with EmptyString => true | String _ _ => false end
      | String p pat' =>
          if Ascii.eqb p "%" then
            (like_fuel fuel' pat' s ||
             match s with
             | EmptyString => false
             | String _ s' => like_fuel fuel' pat s'
             end)%bool
          else
            match s with
            | EmptyString => false
            | String c s' =>
                if Ascii.eqb p "_" then
                  like_fuel fuel' pat' (drop_continuation s')
                else
                  (Ascii.eqb (lower_ascii p) (lower_ascii c)
                   && like_fuel fuel' pat' s')%bool
            end
      end
  end.

Definition ilike (pat s : string) : bool :=
  like_fuel (S (String.length pat + String.length s)) pat s.

End Str.

(** ** peewee: models, query expressions, selection *)

Module Peewee.

(** A model class: rows [R] with columns named by [F]. *)
Class Model (R F : Type) : Type := column : F -> R -> pyval.
#[global] Arguments column {R F _} _ _.

(** Query expression nodes ([peewee.Expression]). *)
Inductive Expression (F : Type) : Type :=
| OpEq (f : F) (v : pyval)          (* column = v *)
| OpIs (f : F)                      (* column IS NULL *)
| OpILike (f : F) (pat : string)    (* column ILIKE pat *)
| OpAnd (l r : Expression F).       (* l & r *)
#[global] Arguments OpEq {F} _ _.
#[global] Arguments OpIs {F} _.
#[global] Arguments OpILike {F} _ _.
#[global] Arguments OpAnd {F} _ _.

(** [Field.__eq__(rhs)]: [OP.IS] when [rhs is None], else [OP.EQ]. *)
Definition field_eq {F} (f : F) (rhs : pyval) : Expression F :=
  match rhs with
  | PyNone => OpIs f
  | _ => OpEq f rhs
  end.

(** [Field ** pat]: case-insensitive LIKE. *)
Definition field_ilike {F} (f : F) (pat : string) : Expression F :=
  OpILike f pat.

(** An [Expression] object defines neither [__bool__] nor [__len__]:
    Python's truth test on it is always true. *)
#[global] Instance Expression_truthy {F} : Truthy (Expression F) :=
  fun _ => true.

(** The WHERE clause on one row.  A comparison with a NULL column is
    not true. *)
Fixpoint holds {R F} `{Model R F} (e : Expression F) (r : R) : bool :=
  match e with
  | OpEq f v =>
      match column f r with
      | PyNone => false
      | c => bool_decide (c = v)
      end
  | OpIs f => bool_decide (column f r = PyNone)
  | OpILike f pat =>
      match column f r with
      | PyStr s => Str.ilike pat s
      | _ => false
      end
  | OpAnd l r' => (holds l r && holds r' r)%bool
  end.

(** [Model.select().where(e)] *)
Definition select_where {R F} `{Model R F} (e : Expression F) (tbl : list R)
  : list R :=
  List.filter (holds e) tbl.

(** [Model.get_or_none(e)]: the first selected row, if any. *)
Definition get_or_none {R F} `{Model R F} (e : Expression F) (tbl : list R)
  : option R :=
  head (select_where e tbl).

End Peewee.
Export Peewee.

(** ** The tables of [models.py]

    The declarations of [models.py] are not part of the sources at hand.
    The attributes below are those the views read and write.  A record
    is the Python object: any text attribute can hold [None]; the
    constraints of a table are enforced when an object is saved. *)

Module Models.

(** Modelled from the spec: the [User] model of [models.py] (section 3:
    unique id, unique email, unique username, optional password hash,
    optional picture filename). *)
Record User : Type := mkUser {
  user_id : Z;
  user_email : option string;
  user_username : option string;
  user_password : option string;     (* the password hash *)
  user_picture : option string       (* file name under PIC_PATH *)
}.

(** Modelled from the spec: the [Profile] model of [models.py] (section
    3: one per user, a visibility flag, education, experience and bio
    text). *)
Record Profile : Type := mkProfile {
  profile_id : Z;
  profile_user : Z;                  (* foreign key to User *)
  profile_is_public : bool;
  profile_education : option string;
  profile_experience : option string;
  profile_bio : option string
}.

(** Modelled from the spec: the [Project] model of [models.py] (section
    3: a named package at a version with its metadata and timestamps). *)
Record Project : Type := mkProject {
  project_name : option string;
  project_version : option string;
  project_description : option string;
  project_description_content_type : option string;
  project_home_page : option string;
  project_keywords : option string;
  project_license : option string;
  project_maintainer : option string;
  project_maintainer_email : option string;
  project_summary : option string;
  project_create_at : option Z;
  project_last_modified : option Z
}.

(** Modelled from the spec: the [Ring] model of [models.py] (section 3:
    an artifact tied to a project by name, with author, requirements,
    stored file name, checksum and upload time). *)
Record Ring : Type := mkRing {
  ring_name : option string;
  ring_version : option string;
  ring_platform : option string;
  ring_author : option string;
  ring_author_email : option string;
  ring_require_dist : option string;
  ring_requires_mojo : option string;
  ring_file_name : option string;
  ring_sha256 : option string;
  ring_upload_at : option Z
}.

#[global] Instance User_eq_dec : EqDecision User.
Proof. solve_decision. Defined.
#[global] Instance Profile_eq_dec : EqDecision Profile.
Proof. solve_decision. Defined.
#[global] Instance Project_eq_dec : EqDecision Project.
Proof. solve_decision. Defined.
#[global] Instance Ring_eq_dec : EqDecision Ring.
Proof. solve_decision. Defined.

(** The columns the views mention in query expressions. *)
Inductive UserField := User_id | User_email.
Inductive ProfileField := Profile_user.
Inductive ProjectField := Project_name | Project_version.
Inductive RingField :=
  Ring_name | Ring_version | Ring_platform | Ring_upload_at.

#[global] Instance User_model : Model User UserField :=
  fun f u => match f with
             | User_id => PyInt (user_id u)
             | User_email => of_text (user_email u)
             end.

#[global] Instance Profile_model : Model Profile ProfileField :=
  fun f p => match f with Profile_user => PyInt (profile_user p) end.

#[global] Instance Project_model : Model Project ProjectField :=
  fun f p => match f with
             | Project_name => of_text (project_name p)
             | Project_version => of_text (project_version p)
             end.

#[global] Instance Ring_model : Model Ring RingField :=
  fun f r => match f with
             | Ring_name => of_text (ring_name r)
             | Ring_version => of_text (ring_version r)
             | Ring_platform => of_text (ring_platform r)
             | Ring_upload_at => of_datetime (ring_upload_at r)
             end.

Record database : Type := mkDatabase {
  users : list User;
  profiles : list Profile;
  projects : list Project;
  rings : list Ring
}.

(** The keyword arguments [ring_file] passes to [add_ring]. *)
Record add_ring_kwargs : Type := mkAddRing {
  kw_name : pyval;
  kw_version : pyval;
  kw_platform : pyval;
  kw_author : pyval;
  kw_author_email : pyval;
  kw_require_dist : pyval;
  kw_require_mojo : pyval;
  kw_file_name : string;
  kw_sha256 : string
}.

(** SQL [MAX] over a column: NULLs are skipped; no non-NULL value gives
    NULL. *)
Definition max_opt {A} (leb : A -> A -> bool) (a b : option A) : option A :=
  match a, b with
  | None, _ => b
  | _, None => a
  | Some x, Some y => if leb x y then Some y else Some x
  end.

Definition sql_max {A} (leb : A -> A -> bool) (col : list (option A))
  : option A :=
  foldr (max_opt leb) None col.

(** Modelled from the spec: the constraints of the [User] table, declared
    in [models.py] (section 3: [id], [username] and [email] are each
    unique; the latter two are required). *)
Definition users_wf (tbl : list User) : Prop :=
  NoDup (user_id <$> tbl) /\
  NoDup (user_username <$> tbl) /\
  NoDup (user_email <$> tbl) /\
  Forall (fun u => is_Some (user_username u) /\ is_Some (user_email u)) tbl.

End Models.
Export Models.

(** ** Flask: requests, responses, aborts, and the handler monad *)

Module Flask.

Definition bytes : Type := list Byte.byte.

(** Exceptions no handler of the application catches unless stated. *)
Inductive exn : Type :=
| DoesNotExist
| IntegrityError
| InvalidInputError
| AssertionError
| AttributeError
| UnboundLocalError (name : string)
| OtherError (what : string).

(** [url_for(endpoint, **kwargs)], or a literal location. *)
Inductive url : Type :=
| UrlStr (s : string)
| UrlFor (endpoint : string) (kwargs : list (string * pyval)).

(** The two directories the views read and write, each a map from the
    name joined onto it to the content of the regular file there. *)
Inductive directory : Type := PIC_PATH | RINGS_PATH.

Inductive ctxval : Type :=
| CUrl (u : url)
| CText (t : option string)
| CHtml (h : string)
| CProfile (p : Profile)
| CInfo (i : option (gmap string pyval))
| CProjects (l : list Project)
| CRings (l : list Ring).

(** What a view function returns. *)
Inductive response : Type :=
| render_template (name : string) (ctx : list (string * ctxval))
| redirect (location : url)
| json_body (d : list (string * pyval))
| send_from_directory (d : directory) (name : string) (body : bytes)
| returns_None.

(** How a computation ends: with a value, through [abort(code,
    description)], or through an exception. *)
Inductive outcome (A : Type) : Type :=
| Return (a : A)
| Abort (code : Z) (description : option string)
| Raise (e : exn).
#[global] Arguments Return {A} _.
#[global] Arguments Abort {A} _ _.
#[global] Arguments Raise {A} _.

(** Observable effects, in the order they happen. *)
Inductive event : Type :=
| EvReadFile (d : directory) (name : string)
| EvWriteFile (d : directory) (name : string) (body : bytes)
| EvSaveUser (u : User)
| EvSaveProfile (p : Profile)
| EvAddRing (k : add_ring_kwargs).

Record world : Type := mkWorld {
  db : database;
  pic_files : gmap string bytes;      (* regular files under PIC_PATH *)
  ring_files : gmap string bytes;     (* regular files under RINGS_PATH *)
  session : option Z;                 (* the user id flask_login keeps *)
  flashes : list string;              (* messages passed to [flash] *)
  trace : list event                  (* effects so far, oldest first *)
}.

Definition M (A : Type) : Type := world -> outcome A * world.

Definition ret {A} (a : A) : M A := fun w => (Return a, w).

Definition bind {A B} (m : M A) (k : A -> M B) : M B :=
  fun w =>
    match m w with
    | (Return a, w') => k a w'
    | (Abort c d, w') => (Abort c d, w')
    | (Raise e, w') => (Raise e, w')
    end.

Definition abort {A} (code : Z) (description : option string) : M A :=
  fun w => (Abort code description, w).

Definition raise {A} (e : exn) : M A := fun w => (Raise e, w).

(** [try: m except e: h] *)
Definition try_except {A} (m : M A) (catches : exn -> bool) (h : M A) : M A :=
  fun w =>
    match m w with
    | (Raise e, w') => if catches e then h w' else (Raise e, w')
    | r => r
    end.

Definition get_world : M world := fun w => (Return w, w).

Definition set_db (d : database) (w : world) : world :=
  mkWorld d (pic_files w) (ring_files w) (session w) (flashes w) (trace w).
Definition set_pic_files (f : gmap string bytes) (w : world) : world :=
  mkWorld (db w) f (ring_files w) (session w) (flashes w) (trace w).
Definition set_ring_files (f : gmap string bytes) (w : world) : world :=
  mkWorld (db w) (pic_files w) f (session w) (flashes w) (trace w).
Definition set_session (s : option Z) (w : world) : world :=
  mkWorld (db w) (pic_files w) (ring_files w) s (flashes w) (trace w).
Definition add_flash (msg : string) (w : world) : world :=
  mkWorld (db w) (pic_files w) (ring_files w) (session w)
          (flashes w ++ [msg]) (trace w).
Definition log (e : event) (w : world) : world :=
  mkWorld (db w) (pic_files w) (ring_files w) (session w) (flashes w)
          (trace w ++ [e]).

Definition modify (f : world -> world) : M unit :=
  fun w => (Return tt, f w).

(** [flash(msg)] *)
Definition flash (msg : string) : M unit := modify (add_flash msg).

Definition files (d : directory) (w : world) : gmap string bytes :=
  match d with PIC_PATH => pic_files w | RINGS_PATH => ring_files w end.

Definition set_files (d : directory) (f : gmap string bytes) (w : world)
  : world :=
  match d with
  | PIC_PATH => set_pic_files f w
  | RINGS_PATH => set_ring_files f w
  end.

(** An uploaded file ([werkzeug.FileStorage]). *)
Record FileStorage : Type := mkFileStorage {
  filename : string;
  stream : bytes
}.

(** [bool(file)] is [bool(file.filename)]. *)
#[global] Instance FileStorage_truthy : Truthy FileStorage :=
  fun f => truthy (filename f).

(** A name that is a single path component: not empty, not [.] nor
    [..], and without separator or NUL byte.  [d / name] is then the
    entry [name] of [d] itself, and on a file system that tells names
    apart byte by byte two such names are the same file only when they
    are equal. *)
Definition plain_name (name : string) : bool :=
  (negb (String.eqb name "") && negb (String.eqb name ".")
   && negb (String.eqb name "..")
   && negb (Str.contains "/" name)
   && negb (Str.contains (String Ascii.zero "") name))%bool.

(** [file.save(d / name)], for a directory [d] that exists and holds
    regular files only: the file at that name now holds the upload.
    The empty name is the directory itself, which cannot be opened for
    writing.  The map of a directory is keyed by the name as written:
    that is the file system for plain names.  With a separator in it a
    name is a path, which can lie in a directory that does not exist,
    or outside [d], or be another spelling of an entry of [d]; this
    definition says nothing true of those, and the properties of where
    an upload lands are stated for plain names. *)
Definition file_save (f : FileStorage) (d : directory) (name : string)
  : M unit :=
  fun w =>
    if String.eqb name "" then (Raise (OtherError "IsADirectoryError"), w)
    else
      (Return tt,
       log (EvWriteFile d name (stream f))
           (set_files d (<[name := stream f]> (files d w)) w)).

(** [send_from_directory(d, name)], for a plain name: the content of
    the file, Not Found without one.  For a name that leaves [d]
    werkzeug's [safe_join] answers Not Found whatever the files are;
    the keys of a directory being plain names, the lookup of such a
    name finds nothing either. *)
Definition send_from (d : directory) (name : string) : M response :=
  fun w =>
    match files d w !! name with
    | Some body =>
        (Return (send_from_directory d name body), log (EvReadFile d name) w)
    | None => (Abort 404 None, w)
    end.

(** [(d / name).is_file()] *)
Definition is_file (d : directory) (name : string) (w : world) : bool :=
  bool_decide (is_Some (files d w !! name)).

Inductive http_method : Type := GET | POST.

Record request : Type := mkRequest {
  method : http_method;
  args : gmap string string;          (* the query string *)
  form : gmap string string;          (* the posted form *)
  req_files : gmap string FileStorage;
  is_json : bool;
  json : gmap string pyval            (* the parsed JSON object *)
}.

End Flask.
Export Flask.

Declare Scope handler_scope.
Delimit Scope handler_scope with handler.
Notation "'let*' x ':=' m 'in' k" := (Flask.bind m (fun x => k))
  (at level 10, x name, m at level 100, k at level 200) : handler_scope.
Notation "m ';;' k" := (Flask.bind m (fun _ => k))
  (at level 100, k at level 200, right associativity) : handler_scope.
Local Open Scope handler_scope.

(** ** pathlib and f-strings *)

Module Paths.

(** [s.rfind(c)]: the index of the last occurrence of [c]. *)
Fixpoint rfind (c : ascii) (s : string) : option nat :=
  match s with
  | EmptyString => None
  | String a s' =>
      match rfind c s' with
      | Some i => Some (S i)
      | None => if Ascii.eqb a c then Some O else None
      end
  end.

(** The final component of a path written without trailing separator. *)
Definition path_name (p : string) : string :=
  match rfind "/" p with
  | Some i => String.substring (S i) (String.length p - S i) p
  | None => p
  end.

(** [Path(p).suffix]: from the last dot of the final component, unless
    that dot is its first or its last character. *)
Definition Path_suffix (p : string) : string :=
  let name := path_name p in
  match rfind "." name with
  | Some i =>
      if (Nat.ltb 0 i && Nat.ltb i (String.length name - 1))%bool
      then String.substring i (String.length name - i) name
      else ""
  | None => ""
  end.

(** [f"{x}"] for a text value that may be [None]. *)
Definition fmt (v : option string) : string :=
  match v with
  | None => "None"
  | Some s => s
  end.

End Paths.
Export Paths.

(** ** The views *)

Module Views.
Section views.

(** Helpers of [utils.py], [readme.py], [models.py] and werkzeug that
    the views call; their code is not part of the sources at hand. *)
Variable verify_password : option string -> option string -> bool.
Variable hash_password : option string -> string.
Variable calculate_sha256 : option bytes -> exn + string.
Variable add_ring : add_ring_kwargs -> database -> exn + database.
Variable secure_filename : string -> string.
Variable render : option string -> option string -> string.

(** *** Row access *)

(** [Model.get(e)]: the first selected row, [DoesNotExist] without one. *)
Definition get {R F} `{Model R F} (e : Expression F) (tbl : list R) : M R :=
  match get_or_none e tbl with
  | Some r => ret r
  | None => raise DoesNotExist
  end.

(** [User.get_by_id(pk)] *)
Definition User_get_by_id (pk : Z) : M User :=
  let* w := get_world in
  get (field_eq User_id (PyInt pk)) (users (db w)).

(** [Profile.get(Profile.user == user)] *)
Definition Profile_get_by_user (user : User) : M Profile :=
  let* w := get_world in
  get (field_eq Profile_user (PyInt (user_id user))) (profiles (db w)).

(** Modelled from the spec: the check the database makes when [u] is
    written over the row with its id, against the constraints [models.py]
    declares for the [User] table (section 3: username and email required
    and unique). *)
Definition user_conflict (u : User) (tbl : list User) : bool :=
  (bool_decide (user_username u = None) ||
   bool_decide (user_email u = None) ||
   existsb (fun v =>
              negb (bool_decide (user_id v = user_id u)) &&
              (bool_decide (user_username v = user_username u) ||
               bool_decide (user_email v = user_email u))) tbl)%bool.

(** [user.save()] on a loaded row: UPDATE ... WHERE id = user.id. *)
Definition User_save (u : User) : M unit :=
  fun w =>
    if user_conflict u (users (db w)) then (Raise IntegrityError, w)
    else
      let tbl := (fun v => if bool_decide (user_id v = user_id u) then u else v)
                   <$> users (db w) in
      let d := mkDatabase tbl (profiles (db w)) (projects (db w))
                          (rings (db w)) in
      (Return tt, log (EvSaveUser u) (set_db d w)).

(** [profile.save()] on a loaded row. *)
Definition Profile_save (p : Profile) : M unit :=
  modify (fun w =>
    let tbl := (fun q => if bool_decide (profile_id q = profile_id p)
                         then p else q) <$> profiles (db w) in
    let d := mkDatabase (users (db w)) tbl (projects (db w)) (rings (db w)) in
    log (EvSaveProfile p) (set_db d w)).

(** *** flask_login *)

(** [load_user]: [None] when the id of the session has no row. *)
Definition load_user (user_id : Z) (w : world) : option User :=
  get_or_none (field_eq User_id (PyInt user_id)) (users (db w)).

(** Who makes the request: the user [load_user] finds for the id of the
    session, [None] for the anonymous user. *)
Definition requester (w : world) : option User :=
  session w ≫= fun i => load_user i w.

(** [current_user]: the requester; [is_authenticated] is being [Some]. *)
Definition current_user : M (option User) :=
  fun w => (Return (requester w), w).

(** [login_user(user)], for users that are active as [UserMixin] has
    them. *)
Definition login_user (user : User) : M unit :=
  modify (set_session (Some (user_id user))).

Definition is_exn (e : exn) : exn -> bool :=
  fun e' =>
    match e, e' with
    | DoesNotExist, DoesNotExist
    | IntegrityError, IntegrityError
    | InvalidInputError, InvalidInputError
    | AssertionError, AssertionError
    | AttributeError, AttributeError => true
    | _, _ => false
    end.

(** [next_url or url] *)
Definition or_url (next_url : option string) (u : url) : url :=
  match next_url with
  | Some s => if truthy s then UrlStr s else u
  | None => u
  end.

Definition static_icon : url :=
  UrlFor "static" [("filename", PyStr "Sample_User_Icon.png")].

(** *** Avatar locations *)

Definition avatar_url : M url :=
  let* cu := current_user in
  match cu with
  | Some u =>
      if truthy (user_picture u) then ret (UrlFor "fbp.get_profile_pic" [])
      else ret static_icon
  | None => ret static_icon
  end.

(** The local variables of [profile_pic_url]; [None] is a name that no
    assignment has bound yet. *)
Record pic_url_locals : Type := mkLocals {
  local_user : option User;
  local_url : option url
}.

(** Reading a local variable. *)
Definition read_local {A} (name : string) (v : option A) : M A :=
  match v with
  | Some a => ret a
  | None => raise (UnboundLocalError name)
  end.

Definition profile_pic_url (user_id : Z) : M url :=
  let locals := mkLocals None None in
  (* try: user = User.get_by_id(user_id)
     except DoesNotExist: url = url_for("static", ...) *)
  let* locals :=
    try_except
      (let* u := User_get_by_id user_id in
       ret (mkLocals (Some u) (local_url locals)))
      (is_exn DoesNotExist)
      (ret (mkLocals (local_user locals) (Some static_icon))) in
  (* if user.picture: ... else: ... *)
  let* user := read_local "user" (local_user locals) in
  let locals :=
    if truthy (user_picture user)
    then mkLocals (local_user locals)
           (Some (UrlFor "fbp.get_profile_pic" [("user_id", PyInt user_id)]))
    else mkLocals (local_user locals) (Some static_icon) in
  read_local "url" (local_url locals).

(** *** Site and authentication *)

Definition login (req : request) : M response :=
  match method req with
  | GET =>
      ret (render_template "login.html" [("next_url", CText (args req !! "next"))])
  | POST =>
      let email := form req !! "email" in
      let password := form req !! "password" in
      let next_url := args req !! "next" in
      let* w := get_world in
      let user := get_or_none (field_eq User_email (of_text email))
                              (users (db w)) in
      match user with
      | Some user =>
          if negb (truthy (user_password user)) then
            login_user user;;
            flash "Need to reset password.";;
            ret (redirect (or_url next_url (UrlFor "mbp.reset_password" [])))
          else if verify_password password (user_password user) then
            login_user user;;
            flash "Logged in successfully.";;
            ret (redirect (or_url next_url (UrlFor "mbp.index" [])))
          else
            flash "Wrong password.";;
            ret (redirect (UrlFor "mbp.login" [("next", of_text next_url)]))
      | None =>
          flash "Email incorrect.";;
          ret (redirect (UrlFor "mbp.login" []))
      end
  end.

Definition py_assert (b : bool) : M unit :=
  if b then ret tt else raise AssertionError.

Definition with_password (u : User) (h : option string) : User :=
  mkUser (user_id u) (user_email u) (user_username u) h (user_picture u).
Definition with_username (u : User) (n : option string) : User :=
  mkUser (user_id u) (user_email u) n (user_password u) (user_picture u).
Definition with_picture (u : User) (p : option string) : User :=
  mkUser (user_id u) (user_email u) (user_username u) (user_password u) p.

Definition reset_password (req : request) : M response :=
  let* cu := current_user in
  match cu with
  | None => abort 401 None
  | Some cu =>
      match method req with
      | GET =>
          let* avatar := avatar_url in
          ret (render_template "reset_password.html" [("avatar", CUrl avatar)])
      | POST =>
          let new_password := form req !! "new-password" in
          let confirm_password := form req !! "confirm-password" in
          try_except
            (py_assert (bool_decide (new_password = confirm_password)))
            (is_exn AssertionError)
            (abort 403 (Some "New password is not equal to confirm password."));;
          let cu := with_password cu (Some (hash_password new_password)) in
          User_save cu;;
          flash "New password set!";;
          ret (redirect (UrlFor "mbp.settings" []))
      end
  end.

(** *** Profiles *)

(** [current_user == user]: the same row of the same table. *)
Definition user_eq (cu : option User) (user : User) : bool :=
  match cu with
  | Some c => bool_decide (user_id c = user_id user)
  | None => false
  end.

Definition profile (user_id : Z) : M response :=
  let* user := try_except (User_get_by_id user_id) (is_exn DoesNotExist)
                          (abort 404 None) in
  let* pf := Profile_get_by_user user in
  let* cu := current_user in
  if (profile_is_public pf || user_eq cu user)%bool then
    let* pic := profile_pic_url user_id in
    let* avatar := avatar_url in
    ret (render_template "profile.html"
           [("profile_pic_url", CUrl pic); ("avatar", CUrl avatar);
            ("profile", CProfile pf)])
  else abort 404 (Some "User's profile is private.").

Definition profile_pic_upload (req : request) : M response :=
  let* cu := current_user in
  match cu with
  | None => abort 401 None
  | Some cu =>
      match req_files req !! "file" with
      | None => abort 400 (Some "No file provided.")
      | Some file =>
          if String.eqb (filename file) "" then
            abort 400 (Some "Empty filename.")
          else if truthy file then
            let filename := secure_filename (filename file) in
            let username := user_username cu in
            let filename_suffix := Path_suffix filename in
            file_save file PIC_PATH (fmt username ++ filename_suffix);;
            let cu := with_picture cu (Some (fmt username ++ filename_suffix)) in
            User_save cu;;
            ret (json_body
                   [("message", PyStr "Profile picture saved successfully.")])
          else abort 400 (Some "Invalid file.")
      end
  end.

Definition get_profile_pic (user_id : option Z) : M response :=
  let* user :=
    match user_id with
    | None =>
        let* cu := current_user in
        match cu with
        | None => abort 401 None
        | Some cu => ret cu
        end
    | Some user_id =>
        try_except (User_get_by_id user_id) (is_exn DoesNotExist)
                   (abort 404 (Some "User not found."))
    end in
  let* w := get_world in
  if (truthy (user_picture user) &&
      is_file PIC_PATH (fmt (user_picture user)) w)%bool
  then send_from PIC_PATH (fmt (user_picture user))
  else abort 404 (Some "Profile picture not found.").

Definition with_texts (p : Profile) (education experience bio : option string)
  : Profile :=
  mkProfile (profile_id p) (profile_user p) (profile_is_public p)
            education experience bio.

Definition edit_profile (req : request) : M response :=
  let* cu := current_user in
  match cu with
  | None => abort 401 None
  | Some cu =>
      match method req with
      | GET =>
          let* pf := Profile_get_by_user cu in
          let* avatar := avatar_url in
          ret (render_template "edit_profile.html"
                 [("avatar", CUrl avatar); ("profile", CProfile pf)])
      | POST =>
          let username := form req !! "username" in
          let education := form req !! "education" in
          let experience := form req !! "experience" in
          let bio := form req !! "bio" in
          let cu := with_username cu username in
          try_except (User_save cu) (is_exn IntegrityError)
            (flash "New username conflicts with existing account.");;
          let* pf := Profile_get_by_user cu in
          let pf := with_texts pf education experience bio in
          Profile_save pf;;
          flash "Edit Successful!";;
          ret (redirect (UrlFor "mbp.profile" [("user_id", PyInt (user_id cu))]))
      end
  end.

(** *** Package metadata *)

Definition Project_query (pname : string) (version : option string)
  : Expression ProjectField :=
  py_and (field_eq Project_name (PyStr pname))
         (field_eq Project_version (of_text version)).

(** [info[k] = v] guarded by [if v:]. *)
Definition put_if (k : string) (v : option string) (info : gmap string pyval)
  : gmap string pyval :=
  if truthy v then <[k := of_text v]> info else info.

Definition project_info (d : database) (pname : string)
  (version : option string) : option (gmap string pyval) :=
  let pj := get_or_none (Project_query pname version) (projects d) in
  let latest_ring_dt :=
    sql_max Z.leb
      (ring_upload_at <$>
         select_where (field_eq Ring_name (PyStr pname)) (rings d)) in
  let ring :=
    get_or_none
      (py_and (field_eq Ring_name (PyStr pname))
              (field_eq Ring_upload_at (of_datetime latest_ring_dt)))
      (rings d) in
  match pj with
  | None => None
  | Some pj =>
      let info : gmap string pyval := {[ "name" := PyStr pname ]} in
      let info := <["version" := of_text (project_version pj)]> info in
      let info := put_if "description" (project_description pj) info in
      let info := put_if "description_content_type"
                    (project_description_content_type pj) info in
      let info := put_if "home_page" (project_home_page pj) info in
      let info := put_if "keywords" (project_keywords pj) info in
      let info := put_if "license" (project_license pj) info in
      let info :=
        match ring with
        | Some ring =>
            let info := put_if "author" (ring_author ring) info in
            let info := put_if "author_email" (ring_author_email ring) info in
            put_if "requires_mojo" (ring_requires_mojo ring) info
        | None => info
        end in
      let info := put_if "maintainer" (project_maintainer pj) info in
      let info := put_if "maintainer_email" (project_maintainer_email pj) info in
      let info := put_if "summary" (project_summary pj) info in
      let info := <["create_at" := of_datetime (project_create_at pj)]> info in
      let info :=
        <["last_modified" := of_datetime (project_last_modified pj)]> info in
      Some info
  end.

Definition latest_project_version (d : database) (project_name : string)
  : option string :=
  sql_max String.leb
    (Models.project_version <$>
       select_where (field_eq Project_name (PyStr project_name)) (projects d)).

(** The version of the route, or the latest one for the empty string. *)
Definition route_version (d : database) (project_name version : string)
  : option string :=
  if String.eqb version "" then latest_project_version d project_name
  else Some version.

Definition project (project_name version : string) : M response :=
  let* w := get_world in
  let version := route_version (db w) project_name version in
  match get_or_none (Project_query project_name version) (projects (db w)) with
  | None => abort 404 None
  | Some pj =>
      let* avatar := avatar_url in
      ret (render_template "project.html"
             [("info", CInfo (project_info (db w) project_name version));
              ("description",
               CHtml (render (project_description pj)
                             (project_description_content_type pj)));
              ("avatar", CUrl avatar)])
  end.

(** NULL sorts below every timestamp. *)
Definition datetime_leb (a b : option Z) : bool :=
  match a, b with
  | None, _ => true
  | Some _, None => false
  | Some x, Some y => x <=? y
  end.

(** [order_by(Ring.upload_at.desc())] *)
Definition by_upload_at_desc (l : list Ring) : list Ring :=
  merge_sort (fun r1 r2 => datetime_leb (ring_upload_at r2) (ring_upload_at r1))
             l.

Definition project_history (project_name version : string) : M response :=
  let* w := get_world in
  let version := route_version (db w) project_name version in
  match get_or_none (Project_query project_name version) (projects (db w)) with
  | None => abort 404 (Some "Project not exist.")
  | Some pj =>
      let releases :=
        by_upload_at_desc
          (select_where (field_eq Ring_name (PyStr project_name))
                        (rings (db w))) in
      let* avatar := avatar_url in
      ret (render_template "project_history.html"
             [("info", CInfo (project_info (db w) project_name version));
              ("releases", CRings releases);
              ("avatar", CUrl avatar)])
  end.

Definition project_files (project_name version : string) : M response :=
  let* w := get_world in
  let version := route_version (db w) project_name version in
  match get_or_none (Project_query project_name version) (projects (db w)) with
  | None => abort 404 (Some "Project not exist.")
  | Some pj =>
      let rings :=
        select_where
          (py_and (field_eq Ring_name (PyStr project_name))
                  (field_eq Ring_version (of_text version)))
          (rings (db w)) in
      let* avatar := avatar_url in
      ret (render_template "project_download.html"
             [("info", CInfo (project_info (db w) project_name version));
              ("rings", CRings rings);
              ("avatar", CUrl avatar)])
  end.

(** *** Ring transfer *)

(** [calculate_sha256(d / name)]: a checksum of whatever is at that
    name when the call is made. *)
Definition sha256_at (d : directory) (name : string) : M string :=
  fun w =>
    match calculate_sha256 (files d w !! name) with
    | inl e => (Raise e, log (EvReadFile d name) w)
    | inr h => (Return h, log (EvReadFile d name) w)
    end.

(** The call of [add_ring] on the database of the moment. *)
Definition call_add_ring (k : add_ring_kwargs) : M unit :=
  fun w =>
    match add_ring k (db w) with
    | inl e => (Raise e, w)
    | inr d => (Return tt, log (EvAddRing k) (set_db d w))
    end.

(** [data.get(k, dflt)] *)
Definition dict_get (data : gmap string pyval) (k : string) (dflt : pyval)
  : pyval :=
  default dflt (data !! k).

Definition Ring_query (name : string) (version : option string)
  : Expression RingField :=
  py_and (field_eq Ring_name (PyStr name))
         (field_eq Ring_version (of_text version)).

Definition Ring_query_platform (name : string) (version : option string)
  (platform : string) : Expression RingField :=
  py_and (py_and (field_eq Ring_name (PyStr name))
                 (field_eq Ring_version (of_text version)))
         (field_eq Ring_platform (PyStr platform)).

Definition ring_file (req : request) (name version platform : string)
  : M response :=
  let* w := get_world in
  let version : option string :=
    if negb (truthy version) then latest_project_version (db w) name
    else Some version in
  match method req with
  | GET =>
      let ring :=
        if truthy platform
        then get_or_none (Ring_query_platform name version platform)
                         (rings (db w))
        else get_or_none (Ring_query name version) (rings (db w)) in
      match ring with
      | None =>
          abort 404 (Some ("Ring not found: " ++ name ++ ", version: "
                           ++ fmt version ++ ", platform: " ++ platform))
      | Some ring =>
          if truthy (ring_file_name ring)
          then send_from RINGS_PATH (fmt (ring_file_name ring))
          else abort 404 (Some "Ring file not uploaded.")
      end
  | POST =>
      if negb (is_json req) then abort 415 (Some "Not JSON")
      else
        match req_files req !! "file" with
        | None => abort 400 None
        | Some file =>
            if String.eqb (filename file) "" then
              abort 400 (Some "No file upload.")
            else
              let data := json req in
              let name := dict_get data "name" PyNone in
              let version := dict_get data "version" (PyStr "") in
              let platform := dict_get data "platform" (PyStr "") in
              let author := dict_get data "author" (PyStr "") in
              let author_email := dict_get data "author_email" (PyStr "") in
              let require_dist := dict_get data "require_dist" (PyStr "") in
              let require_mojo := dict_get data "require_mojo" (PyStr "") in
              let file_name := filename file in
              let* sha256 := sha256_at RINGS_PATH file_name in
              if bool_decide (name = PyNone) then
                abort 422 (Some "name not provided.")
              else
                try_except
                  (call_add_ring
                     (mkAddRing name version platform author author_email
                                require_dist require_mojo file_name sha256))
                  (is_exn InvalidInputError)
                  (abort 400 (Some "Upload failed. Duplicate ring."));;
                file_save file RINGS_PATH (filename file);;
                ret returns_None
        end
  end.

(** *** Search *)

(** [for x in xs: acc = body(acc, x)] *)
Fixpoint for_each {A B} (xs : list A) (acc : B) (body : B -> A -> M B) : M B :=
  match xs with
  | [] => ret acc
  | x :: xs' => let* acc' := body acc x in for_each xs' acc' body
  end.

(** Calling a [str] method on an attribute: [None] has none. *)
Definition str_attr (v : option string) : M string :=
  match v with
  | Some s => ret s
  | None => raise AttributeError
  end.

Definition search (req : request) : M response :=
  let query_string := default "" (args req !! "q") in
  let* w := get_world in
  let pjs :=
    select_where (field_ilike Project_name ("%" ++ query_string ++ "%"))
                 (projects (db w)) in
  let* results :=
    for_each pjs []
      (fun results pj =>
         let* name := str_attr (project_name pj) in
         if Str.contains (Str.lower query_string) (Str.lower name)
         then ret (results ++ [pj])%list
         else ret results) in
  let* avatar := avatar_url in
  ret (render_template "search_results.html"
         [("results", CProjects results); ("avatar", CUrl avatar)]).

End views.
End Views.

(** * Properties *)

(** ** Host-language [and] between field comparisons *)

Module AndFilter.

(** On query expressions [x and y] is [y]: the truth test of the left
    operand succeeds and its value is dropped. *)
Lemma py_and_Expression {F} (x y : Expression F) : py_and x y = y.
Proof. reflexivity. Qed.

(** A comparison with a text value selects the rows holding it. *)
Lemma holds_field_eq_text {R F} `{Model R F} (f : F) (v : option string) (r : R) :
  holds (field_eq f (of_text v)) r = bool_decide (column f r = of_text v).
Proof.
  destruct v as [s|]; simpl; [|done].
  by destruct (column f r).
Qed.

Lemma get_or_none_Some {R F} `{Model R F} (e : Expression F) (tbl : list R) :
  is_Some (get_or_none e tbl) <-> exists r, r ∈ tbl /\ holds e r = true.
Proof.
  unfold get_or_none, select_where. split.
  - intros [r Hr]. exists r.
    apply head_Some_elem_of in Hr.
    apply list_elem_of_In, filter_In in Hr as [Hr ?].
    by apply list_elem_of_In in Hr.
  - intros (r & Hr & Hh).
    assert (Hin : r ∈ List.filter (holds e) tbl).
    { apply list_elem_of_In, filter_In. split; [by apply list_elem_of_In|done]. }
    destruct (List.filter (holds e) tbl); [by apply elem_of_nil in Hin|].
    by eexists.
Qed.

Definition a1 : Project :=
  mkProject (Some "a") (Some "1") None None None None None None None None
            None None.
Definition b1 : Project :=
  mkProject (Some "b") (Some "1") None None None None None None None None
            None None.

(** C1, as stated, fails.  With the single project [a] at version [1],
    [project_info("a", "2")] finds no project although one named [a]
    exists and the filter on the name alone selects it; with the single
    project [b] at version [1], [project_info("a", "1")] finds a project
    although none is named [a]. *)
Lemma lookup_is_not_by_first_field :
  (get_or_none (Views.Project_query "a" (Some "2")) [a1] = None /\
   get_or_none (field_eq Project_name (PyStr "a")) [a1] = Some a1 /\
   Views.project_info (mkDatabase [] [] [a1] []) "a" (Some "2") = None) /\
  (get_or_none (Views.Project_query "a" (Some "1")) [b1] = Some b1 /\
   get_or_none (field_eq Project_name (PyStr "a")) [b1] = None /\
   is_Some (Views.project_info (mkDatabase [] [] [b1] []) "a" (Some "1"))).
Proof.
  repeat split; try reflexivity.
  vm_compute. eauto.
Qed.

(** C1, amended.  Every lookup written with [and] between field
    comparisons equals the lookup on the last comparison alone: the
    project lookups on the version, the ring lookup of [ring_file] on
    the platform when one is given and on the version otherwise, the
    ring listing of [project_files] on the version, and the ring lookup
    of [project_info] on the upload time.  In particular the project
    lookup of [project_info] succeeds exactly when some project has the
    requested version, whatever its name. *)
Theorem and_filter_is_last_comparison
  (d : database) (name : string) (version : option string)
  (platform : string) (dt : option Z) :
  get_or_none (Views.Project_query name version) (projects d)
    = get_or_none (field_eq Project_version (of_text version)) (projects d) /\
  get_or_none (Views.Ring_query name version) (rings d)
    = get_or_none (field_eq Ring_version (of_text version)) (rings d) /\
  get_or_none (Views.Ring_query_platform name version platform) (rings d)
    = get_or_none (field_eq Ring_platform (PyStr platform)) (rings d) /\
  select_where (py_and (field_eq Ring_name (PyStr name))
                       (field_eq Ring_version (of_text version))) (rings d)
    = select_where (field_eq Ring_version (of_text version)) (rings d) /\
  get_or_none (py_and (field_eq Ring_name (PyStr name))
                      (field_eq Ring_upload_at (of_datetime dt))) (rings d)
    = get_or_none (field_eq Ring_upload_at (of_datetime dt)) (rings d) /\
  (is_Some (Views.project_info d name version) <->
   exists pj, pj ∈ projects d /\ project_version pj = version).
Proof.
  repeat split; try reflexivity.
  - intros Hi.
    assert (Hq : is_Some (get_or_none (Views.Project_query name version)
                                      (projects d))).
    { unfold Views.project_info in Hi.
      destruct (get_or_none (Views.Project_query name version) (projects d));
        [by eexists | by destruct Hi]. }
    apply get_or_none_Some in Hq as (pj & Hin & Hh).
    exists pj. split; [done|].
    unfold Views.Project_query in Hh. rewrite py_and_Expression in Hh.
    rewrite holds_field_eq_text in Hh. apply bool_decide_eq_true in Hh.
    unfold column, Project_model in Hh.
    destruct (project_version pj), version; simpl in Hh; congruence.
  - intros (pj & Hin & Hv).
    assert (Hq : is_Some (get_or_none (Views.Project_query name version)
                                      (projects d))).
    { apply get_or_none_Some. exists pj. split; [done|].
      unfold Views.Project_query. rewrite py_and_Expression.
      rewrite holds_field_eq_text. apply bool_decide_eq_true.
      unfold column, Project_model. by rewrite Hv. }
    unfold Views.project_info. destruct Hq as [pj' ->]. by eexists.
Qed.

End AndFilter.

(** ** Profile pages *)

Module ProfilePages.

Lemma User_get_by_id_load (uid : Z) (w : world) :
  Views.User_get_by_id uid w =
    match Views.load_user uid w with
    | Some u => (Return u, w)
    | None => (Raise DoesNotExist, w)
    end.
Proof.
  unfold Views.User_get_by_id, Views.load_user, Views.get, bind, get_world.
  by destruct (get_or_none _ _).
Qed.

Lemma avatar_url_pure (w : world) :
  exists u, Views.avatar_url w = (Return u, w).
Proof.
  unfold Views.avatar_url, Views.current_user, bind.
  destruct (Views.requester w) as [u|]; [|by eexists].
  destruct (truthy (user_picture u)); by eexists.
Qed.

Lemma profile_pic_url_found (w : world) (uid : Z) (u : User) :
  Views.load_user uid w = Some u ->
  exists l, Views.profile_pic_url uid w = (Return l, w).
Proof.
  intros Hu. unfold Views.profile_pic_url, bind, try_except.
  rewrite User_get_by_id_load, Hu. simpl.
  destruct (truthy (user_picture u)); by eexists.
Qed.

(** C10.  For a user id without a row, [profile_pic_url] ends in the
    unhandled error of reading the local variable [user], which no
    assignment has bound: the fallback location assigned by the handler
    of [DoesNotExist] is never returned. *)
Theorem profile_pic_url_unbound_user (w : world) (uid : Z) :
  Views.load_user uid w = None ->
  Views.profile_pic_url uid w = (Raise (UnboundLocalError "user"), w) /\
  forall l, fst (Views.profile_pic_url uid w) <> Return l.
Proof.
  intros Hu.
  assert (E : Views.profile_pic_url uid w
              = (Raise (UnboundLocalError "user"), w)).
  { unfold Views.profile_pic_url, bind, try_except.
    by rewrite User_get_by_id_load, Hu. }
  split; [done|]. intros l. by rewrite E.
Qed.

Definition alice : User :=
  mkUser 1 (Some "a@x.com") (Some "alice") (Some "hash") None.
Definition alice_private : Profile := mkProfile 1 1 false None None None.
Definition w0 : world :=
  mkWorld (mkDatabase [alice] [alice_private] [] []) ∅ ∅ None [] [].

Lemma profile_pic_url_unbound_user_witness :
  Views.profile_pic_url 2 w0 = (Raise (UnboundLocalError "user"), w0) /\
  forall l, fst (Views.profile_pic_url 2 w0) <> Return l.
Proof. apply (profile_pic_url_unbound_user w0 2). reflexivity. Defined.

(** C5, as stated, fails.  An anonymous requester gets Not Found for
    the private profile of user 1 and for the missing user 2, but the
    two outcomes differ: only the former carries the description
    [User's profile is private.] *)
Lemma private_and_absent_differ :
  Views.requester w0 = None /\
  Views.load_user 1 w0 = Some alice /\
  Views.load_user 2 w0 = None /\
  Views.profile 1 w0 = (Abort 404 (Some "User's profile is private."), w0) /\
  Views.profile 2 w0 = (Abort 404 None, w0) /\
  fst (Views.profile 1 w0) <> fst (Views.profile 2 w0).
Proof. repeat split; try reflexivity. vm_compute. discriminate. Qed.

(** C5, amended.  [profile] aborts with status 404 and leaves the
    world as it is both when the id has no user and when the user's
    profile is private and the requester is not that user; the former
    abort carries no description, the latter the description [User's
    profile is private.]  When the profile is public or the requester
    is the user, the page of that profile is rendered. *)
Theorem profile_404_or_rendered (w : world) (uid : Z) :
  (Views.load_user uid w = None ->
   Views.profile uid w = (Abort 404 None, w)) /\
  (forall user pf,
     Views.load_user uid w = Some user ->
     get_or_none (field_eq Profile_user (PyInt (user_id user)))
                 (profiles (db w)) = Some pf ->
     (profile_is_public pf = false ->
      Views.user_eq (Views.requester w) user = false ->
      Views.profile uid w
        = (Abort 404 (Some "User's profile is private."), w)) /\
     ((profile_is_public pf = true \/
       Views.user_eq (Views.requester w) user = true) ->
      exists pic avatar,
        Views.profile uid w
          = (Return (render_template "profile.html"
                       [("profile_pic_url", CUrl pic);
                        ("avatar", CUrl avatar);
                        ("profile", CProfile pf)]), w))).
Proof.
  split.
  - intros Hu. unfold Views.profile, bind, try_except.
    by rewrite User_get_by_id_load, Hu.
  - intros user pf Hu Hpf.
    unfold Views.profile, bind, try_except.
    rewrite User_get_by_id_load, Hu.
    unfold Views.Profile_get_by_user, Views.get, bind, get_world.
    rewrite Hpf. unfold Views.current_user, ret.
    split.
    + intros -> ->. reflexivity.
    + intros Hor.
      assert ((profile_is_public pf
               || Views.user_eq (Views.requester w) user)%bool = true) as ->.
      { destruct Hor as [-> | ->]; [done|]. by rewrite orb_true_r. }
      destruct (profile_pic_url_found w uid user Hu) as [pic Hpic].
      destruct (avatar_url_pure w) as [avatar Hav].
      exists pic, avatar. by rewrite Hpic, Hav.
Qed.

Lemma profile_404_or_rendered_witness :
  Views.profile 2 w0 = (Abort 404 None, w0) /\
  Views.profile 1 w0 = (Abort 404 (Some "User's profile is private."), w0).
Proof.
  split.
  - apply (proj1 (profile_404_or_rendered w0 2)). reflexivity.
  - apply (proj2 (profile_404_or_rendered w0 1) alice alice_private);
      reflexivity.
Defined.

End ProfilePages.

(** ** Rows and constraints *)

Module Rows.

Lemma get_or_none_cons {R F} `{Model R F} (e : Expression F) (r : R) tbl :
  get_or_none e (r :: tbl) = if holds e r then Some r else get_or_none e tbl.
Proof. unfold get_or_none, select_where. simpl. by destruct (holds e r). Qed.

Lemma get_or_none_elem {R F} `{Model R F} (e : Expression F) tbl (r : R) :
  get_or_none e tbl = Some r -> r ∈ tbl /\ holds e r = true.
Proof.
  induction tbl as [|x tbl IH]; [done|].
  rewrite get_or_none_cons. destruct (holds e x) eqn:E.
  - intros [= ->]. split; [left | done].
  - intros Hr. destruct (IH Hr). split; [by right | done].
Qed.

Lemma holds_user_id (i : Z) (u : User) :
  holds (field_eq User_id (PyInt i)) u = bool_decide (user_id u = i).
Proof.
  simpl. unfold column, User_model.
  destruct (decide (user_id u = i)) as [->|Hne].
  - by rewrite !bool_decide_eq_true_2.
  - rewrite !bool_decide_eq_false_2; [done..|congruence].
Qed.

Lemma holds_profile_user (i : Z) (p : Profile) :
  holds (field_eq Profile_user (PyInt i)) p = bool_decide (profile_user p = i).
Proof.
  simpl. unfold column, Profile_model.
  destruct (decide (profile_user p = i)) as [->|Hne].
  - by rewrite !bool_decide_eq_true_2.
  - rewrite !bool_decide_eq_false_2; [done..|congruence].
Qed.

(** The requester is a row of the table, the one the session names. *)
Lemma requester_row (w : world) (cu : User) :
  Views.requester w = Some cu ->
  cu ∈ users (db w) /\ session w = Some (user_id cu).
Proof.
  unfold Views.requester, Views.load_user.
  destruct (session w) as [i|]; [|done].
  intros Hg. cbn [mbind option_bind] in Hg.
  apply get_or_none_elem in Hg as [Hin Hh].
  rewrite holds_user_id in Hh. apply bool_decide_eq_true in Hh.
  by subst.
Qed.

Lemma NoDup_fmap_eq {A B} (f : A -> B) (l : list A) (x y : A) :
  NoDup (f <$> l) -> x ∈ l -> y ∈ l -> f x = f y -> x = y.
Proof.
  induction l as [|a l IH]; [by intros _ ?%elem_of_nil|].
  rewrite fmap_cons, NoDup_cons. intros [Hna Hnd] Hx Hy Hf.
  apply elem_of_cons in Hx as [->|Hx], Hy as [->|Hy]; auto.
  - exfalso. apply Hna. rewrite Hf. by apply list_elem_of_fmap_2.
  - exfalso. apply Hna. rewrite <- Hf. by apply list_elem_of_fmap_2.
Qed.

(** Saving a row whose unique columns are those of a stored row breaks
    no constraint. *)
Lemma user_conflict_same_keys (tbl : list User) (u u' : User) :
  users_wf tbl -> u ∈ tbl ->
  user_id u' = user_id u ->
  user_username u' = user_username u ->
  user_email u' = user_email u ->
  Views.user_conflict u' tbl = false.
Proof.
  intros (Hid & Hn & He & Hs) Hin Ei En Ee.
  unfold Views.user_conflict.
  rewrite Forall_forall in Hs. destruct (Hs u Hin) as [[n Hun] [e Hue]].
  rewrite En, Ee, Hun, Hue. simpl.
  apply not_true_is_false. intros Hex.
  apply existsb_exists in Hex as (v & Hv & Hc).
  apply list_elem_of_In in Hv.
  apply andb_true_iff in Hc as [Hne Heq].
  apply negb_true_iff, bool_decide_eq_false in Hne.
  apply Hne. rewrite Ei. f_equal.
  apply orb_true_iff in Heq as [Heq|Heq]; apply bool_decide_eq_true in Heq.
  - apply (NoDup_fmap_eq user_username tbl); [done..|congruence].
  - apply (NoDup_fmap_eq user_email tbl); [done..|congruence].
Qed.

(** After a save the row with that id reads back as saved. *)
Lemma load_saved (tbl : list User) (u u' : User) :
  u ∈ tbl -> user_id u' = user_id u ->
  get_or_none (field_eq User_id (PyInt (user_id u)))
    ((fun v => if bool_decide (user_id v = user_id u') then u' else v) <$> tbl)
  = Some u'.
Proof.
  intros Hin Ei. induction tbl as [|x tbl IH]; [by apply elem_of_nil in Hin|].
  rewrite fmap_cons, get_or_none_cons, holds_user_id.
  destruct (decide (user_id x = user_id u')) as [E|E].
  - rewrite (bool_decide_eq_true_2 _ E), bool_decide_eq_true_2; done.
  - rewrite (bool_decide_eq_false_2 _ E), bool_decide_eq_false_2 by congruence.
    apply IH. apply elem_of_cons in Hin as [->|]; [congruence|done].
Qed.

Lemma profile_saved (tbl : list Profile) (i : Z) (pf pf' : Profile) :
  get_or_none (field_eq Profile_user (PyInt i)) tbl = Some pf ->
  profile_id pf' = profile_id pf -> profile_user pf' = i ->
  get_or_none (field_eq Profile_user (PyInt i))
    ((fun q => if bool_decide (profile_id q = profile_id pf') then pf' else q)
       <$> tbl)
  = Some pf'.
Proof.
  intros Hg Ei Eu. induction tbl as [|x tbl IH]; [done|].
  rewrite get_or_none_cons in Hg.
  rewrite fmap_cons, get_or_none_cons.
  destruct (decide (profile_id x = profile_id pf')) as [E|E].
  - rewrite (bool_decide_eq_true_2 _ E), holds_profile_user.
    by rewrite bool_decide_eq_true_2.
  - rewrite (bool_decide_eq_false_2 _ E).
    destruct (holds _ x); [|by apply IH].
    injection Hg as ->. congruence.
Qed.

End Rows.

(** ** Login, password reset and profile edit *)

Module Accounts.
Section accounts.

Variable verify_password : option string -> option string -> bool.
Variable hash_password : option string -> string.

(** The POST branch of [login] on a found user, effects spelled out. *)
Lemma login_post (w : world) (req : request) (user : User) :
  method req = POST ->
  get_or_none (field_eq User_email (of_text (form req !! "email")))
              (users (db w)) = Some user ->
  Views.login verify_password req w =
    if negb (truthy (user_password user)) then
      (Return (redirect (Views.or_url (args req !! "next")
                                      (UrlFor "mbp.reset_password" []))),
       add_flash "Need to reset password."
                 (set_session (Some (user_id user)) w))
    else if verify_password (form req !! "password") (user_password user) then
      (Return (redirect (Views.or_url (args req !! "next")
                                      (UrlFor "mbp.index" []))),
       add_flash "Logged in successfully."
                 (set_session (Some (user_id user)) w))
    else
      (Return (redirect (UrlFor "mbp.login"
                           [("next", of_text (args req !! "next"))])),
       add_flash "Wrong password." w).
Proof.
  intros Hm Hu. unfold Views.login. rewrite Hm.
  unfold bind at 1, get_world. rewrite Hu.
  destruct (negb _); [done|]. by destruct (verify_password _ _).
Qed.

(** C3.  For a user found by the posted email: without a stored hash
    ([None] or the empty string) the session is started for that user
    and [Need to reset password.] is flashed; with a stored hash that
    the posted password verifies against, the session is started; with
    a stored hash and a password that does not verify, [Wrong
    password.] is flashed, the session is the one before the request,
    and the database is untouched (as it is in every case). *)
Theorem login_outcomes (w : world) (req : request) (user : User) :
  method req = POST ->
  get_or_none (field_eq User_email (of_text (form req !! "email")))
              (users (db w)) = Some user ->
  let r := Views.login verify_password req w in
  db (snd r) = db w /\
  (truthy (user_password user) = false ->
   session (snd r) = Some (user_id user) /\
   flashes (snd r) = (flashes w ++ ["Need to reset password."])%list /\
   fst r = Return (redirect (Views.or_url (args req !! "next")
                                          (UrlFor "mbp.reset_password" [])))) /\
  (truthy (user_password user) = true ->
   verify_password (form req !! "password") (user_password user) = true ->
   session (snd r) = Some (user_id user) /\
   flashes (snd r) = (flashes w ++ ["Logged in successfully."])%list /\
   fst r = Return (redirect (Views.or_url (args req !! "next")
                                          (UrlFor "mbp.index" [])))) /\
  (truthy (user_password user) = true ->
   verify_password (form req !! "password") (user_password user) = false ->
   session (snd r) = session w /\
   flashes (snd r) = (flashes w ++ ["Wrong password."])%list /\
   fst r = Return (redirect (UrlFor "mbp.login"
                               [("next", of_text (args req !! "next"))]))).
Proof.
  intros Hm Hu r. subst r. rewrite (login_post w req user Hm Hu).
  destruct (truthy (user_password user)) eqn:Et; simpl.
  - destruct (verify_password _ _) eqn:Ev; simpl;
      (split; [done|]); repeat split; intros; try done; congruence.
  - (split; [done|]); repeat split; intros; try done; congruence.
Qed.

(** The POST branch of [reset_password] for an authenticated user. *)
Lemma reset_password_post (w : world) (req : request) (cu : User) :
  method req = POST ->
  Views.requester w = Some cu ->
  Views.reset_password hash_password req w =
    if bool_decide (form req !! "new-password" = form req !! "confirm-password")
    then
      let cu' := Views.with_password cu
                   (Some (hash_password (form req !! "new-password"))) in
      match Views.User_save cu' w with
      | (Return _, w') =>
          (Return (redirect (UrlFor "mbp.settings" [])),
           add_flash "New password set!" w')
      | (Abort c d, w') => (Abort c d, w')
      | (Raise e, w') => (Raise e, w')
      end
    else
      (Abort 403 (Some "New password is not equal to confirm password."), w).
Proof.
  intros Hm Hcu.
  unfold Views.reset_password, bind at 1, Views.current_user.
  rewrite Hcu, Hm. unfold bind at 1, try_except, Views.py_assert.
  destruct (bool_decide _); [|done]. simpl.
  unfold bind at 1. by destruct (Views.User_save _ w) as [[]].
Qed.

(** C7.  For an authenticated user posting the form: when the two
    values differ the request is aborted with status 403 and the world,
    the stored hash in it, is as before; when they are equal the row of
    the user reads back with the hash of the new password as its
    password, and with its id, email, username and picture as before. *)
Theorem reset_password_outcomes (w : world) (req : request) (cu : User) :
  method req = POST ->
  Views.requester w = Some cu ->
  users_wf (users (db w)) ->
  let new := form req !! "new-password" in
  let confirm := form req !! "confirm-password" in
  (new <> confirm ->
   Views.reset_password hash_password req w
     = (Abort 403 (Some "New password is not equal to confirm password."), w)) /\
  (new = confirm ->
   exists w' stored,
     Views.reset_password hash_password req w
       = (Return (redirect (UrlFor "mbp.settings" [])), w') /\
     Views.load_user (user_id cu) w' = Some stored /\
     user_password stored = Some (hash_password new) /\
     user_id stored = user_id cu /\
     user_email stored = user_email cu /\
     user_username stored = user_username cu /\
     user_picture stored = user_picture cu).
Proof.
  intros Hm Hcu Hwf new confirm.
  destruct (Rows.requester_row w cu Hcu) as [Hin Hs].
  rewrite (reset_password_post w req cu Hm Hcu). fold new confirm. split.
  - intros Hne. by rewrite bool_decide_eq_false_2.
  - intros Heq. rewrite bool_decide_eq_true_2 by done.
    unfold Views.User_save.
    rewrite (Rows.user_conflict_same_keys _ cu) by done.
    eexists _, (Views.with_password cu (Some (hash_password new))).
    split; [reflexivity|]. split; [|done].
    unfold Views.load_user. simpl.
    by apply (Rows.load_saved (users (db w)) cu
                (Views.with_password cu (Some (hash_password new)))).
Qed.

(** A second account holding the posted username makes the save of
    the renamed row fail. *)
Lemma user_conflict_taken (tbl : list User) (u other : User) :
  other ∈ tbl -> user_id other <> user_id u ->
  user_username other = user_username u ->
  Views.user_conflict u tbl = true.
Proof.
  intros Hin Hid Hn. unfold Views.user_conflict.
  apply orb_true_iff. right. apply existsb_exists. exists other.
  split; [by apply list_elem_of_In|].
  rewrite bool_decide_eq_false_2 by done.
  by rewrite (bool_decide_eq_true_2 _ Hn).
Qed.


End accounts.

Definition bob : User := mkUser 7 (Some "b@x.com") (Some "bob") (Some "h:pw1") None.
Definition carol : User := mkUser 8 (Some "c@x.com") (Some "carol") None None.
Definition bob_profile : Profile := mkProfile 70 7 true None None None.
Definition w1 : world :=
  mkWorld (mkDatabase [bob; carol] [bob_profile] [] []) ∅ ∅ (Some 7) [] [].

(** A toy verifier: the hash of [pw] is [h:pw]. *)
Definition toy_hash (pw : option string) : string := "h:" ++ default "" pw.
Definition toy_verify (pw h : option string) : bool :=
  bool_decide (h = Some (toy_hash pw)).

Definition post (fields : list (string * string)) : request :=
  mkRequest POST ∅ (list_to_map fields) ∅ false ∅.

Lemma login_outcomes_witness :
  let r := Views.login toy_verify
             (post [("email", "b@x.com"); ("password", "wrong")]) w1 in
  session (snd r) = session w1 /\
  flashes (snd r) = ["Wrong password."] /\
  db (snd r) = db w1.
Proof.
  pose proof (login_outcomes toy_verify w1
                (post [("email", "b@x.com"); ("password", "wrong")]) bob
                eq_refl eq_refl) as H.
  cbv zeta in H. destruct H as (Hdb & _ & _ & Hw).
  destruct (Hw eq_refl eq_refl) as (Hs & Hf & _).
  cbv zeta. split; [exact Hs | split; [exact Hf | exact Hdb]].
Defined.

Lemma w1_wf : users_wf (users (db w1)).
Proof.
  unfold users_wf. simpl. repeat split; compute_done.
Qed.

Lemma reset_password_outcomes_witness :
  Views.reset_password toy_hash
    (post [("new-password", "x"); ("confirm-password", "y")]) w1
  = (Abort 403 (Some "New password is not equal to confirm password."), w1) /\
  exists w',
    Views.reset_password toy_hash
      (post [("new-password", "n3w"); ("confirm-password", "n3w")]) w1
    = (Return (redirect (UrlFor "mbp.settings" [])), w') /\
    Views.load_user 7 w'
    = Some (mkUser 7 (Some "b@x.com") (Some "bob") (Some "h:n3w") None).
Proof.
  split.
  - apply (proj1 (reset_password_outcomes toy_hash w1
                    (post [("new-password", "x"); ("confirm-password", "y")])
                    bob eq_refl eq_refl w1_wf)).
    vm_compute. discriminate.
  - destruct (proj2 (reset_password_outcomes toy_hash w1
                       (post [("new-password", "n3w");
                              ("confirm-password", "n3w")])
                       bob eq_refl eq_refl w1_wf) eq_refl)
      as (w' & stored & Hr & Hl & Hpw & Hid & He & Hn & Hp).
    exists w'. split; [exact Hr|].
    change (Views.load_user 7 w') with (Views.load_user (user_id bob) w').
    rewrite Hl. f_equal.
    destruct stored as [i e n pw pic]. simpl in *. by subst.
Defined.


End Accounts.

(** ** The response map of [project_info] *)

Module ProjectInfo.

Lemma lookup_put_if_eq (k : string) (v : option string)
  (m : gmap string pyval) :
  Views.put_if k v m !! k = if truthy v then Some (of_text v) else m !! k.
Proof.
  unfold Views.put_if. destruct (truthy v); [|done].
  by rewrite lookup_insert_eq.
Qed.

Lemma lookup_put_if_ne (k k' : string) (v : option string)
  (m : gmap string pyval) :
  k <> k' -> Views.put_if k v m !! k' = m !! k'.
Proof.
  intros Hne. unfold Views.put_if. destruct (truthy v); [|done].
  by rewrite lookup_insert_ne.
Qed.

Lemma truthy_of_text (v : option string) : truthy (of_text v) = truthy v.
Proof. by destruct v. Qed.

(** The optional metadata keys and the attribute each is read from:
    five of the project, three of the ring found (none without a ring),
    three more of the project. *)
Definition optional_fields (pj : Project) (ring : option Ring)
  : list (string * option string) :=
  [ ("description", project_description pj);
    ("description_content_type", project_description_content_type pj);
    ("home_page", project_home_page pj);
    ("keywords", project_keywords pj);
    ("license", project_license pj);
    ("author", ring ≫= ring_author);
    ("author_email", ring ≫= ring_author_email);
    ("requires_mojo", ring ≫= ring_requires_mojo);
    ("maintainer", project_maintainer pj);
    ("maintainer_email", project_maintainer_email pj);
    ("summary", project_summary pj) ].

(** The ring [project_info] consults. *)
Definition ring_consulted (d : database) (pname : string) : option Ring :=
  get_or_none
    (py_and (field_eq Ring_name (PyStr pname))
            (field_eq Ring_upload_at
               (of_datetime
                  (sql_max Z.leb
                     (ring_upload_at <$>
                        select_where (field_eq Ring_name (PyStr pname))
                                     (rings d))))))
    (rings d).

Ltac lookup_through :=
  repeat first
    [ rewrite lookup_put_if_eq
    | rewrite lookup_put_if_ne by done
    | rewrite lookup_insert_eq
    | rewrite lookup_insert_ne by done
    | rewrite lookup_singleton_eq
    | rewrite lookup_singleton_ne by done ].

Definition unversioned : Project :=
  mkProject (Some "a") (Some "") None None None None None None None None
            (Some 1700000000) (Some 1700000000).

(** C4, as stated, fails.  For a project whose version is the empty
    string the map binds the key [version] to that empty value. *)
Lemma version_key_bound_to_empty :
  exists info,
    Views.project_info (mkDatabase [] [] [unversioned] []) "a" (Some "")
      = Some info /\
    info !! "version" = Some (PyStr "") /\
    truthy (PyStr "") = false.
Proof. eexists. split; [reflexivity|]. split; [|reflexivity]. by vm_compute. Qed.

(** C4, amended.  When [project_info] returns a map, it was built from
    the project its lookup found and the ring its ring lookup found,
    and for each optional metadata key the map has the key exactly when
    the attribute it is read from is non-empty, bound to that non-empty
    value.  The keys [name], [version], [create_at] and [last_modified]
    are always present, whatever their value. *)
Theorem project_info_optional_keys (d : database) (pname : string)
  (version : option string) (info : gmap string pyval) :
  Views.project_info d pname version = Some info ->
  exists pj,
    get_or_none (Views.Project_query pname version) (projects d) = Some pj /\
    (forall k v, (k, v) ∈ optional_fields pj (ring_consulted d pname) ->
       (is_Some (info !! k) <-> truthy v = true) /\
       (forall x, info !! k = Some x -> x = of_text v /\ truthy x = true)) /\
    info !! "name" = Some (PyStr pname) /\
    info !! "version" = Some (of_text (project_version pj)) /\
    info !! "create_at" = Some (of_datetime (project_create_at pj)) /\
    info !! "last_modified" = Some (of_datetime (project_last_modified pj)).
Proof.
  unfold Views.project_info. fold (ring_consulted d pname).
  destruct (get_or_none (Views.Project_query pname version) (projects d))
    as [pj|]; [|done].
  intros [= <-]. exists pj. split; [done|].
  split; [|by destruct (ring_consulted d pname); lookup_through].
  intros k v Hin. unfold optional_fields in Hin.
  repeat (apply elem_of_cons in Hin as [[= -> ->]|Hin]);
    [..|by apply elem_of_nil in Hin];
    destruct (ring_consulted d pname) as [ring|];
    cbn [mbind option_bind]; lookup_through;
    (destruct (truthy _) eqn:Et;
     [ first
         [ by (exfalso; vm_compute in Et)
         | split; [split; [done | by eexists]|];
           intros x [= <-]; by rewrite truthy_of_text ]
     | split; [split; [by intros [] | done] | done] ]).
Qed.

Definition other_ring : Ring :=
  mkRing (Some "x") None None (Some "bob") None None None None None (Some 5).
Definition own_ring : Ring :=
  mkRing (Some "a") None None None None None None None None (Some 5).

(** The ring consulted need not be a ring of the project: the lookup
    keeps the upload time only, so a ring of [x] uploaded at the time of
    the latest ring of [a] supplies the author of [a]. *)
Lemma ring_of_another_project :
  let d := mkDatabase [] [] [AndFilter.a1] [other_ring; own_ring] in
  ring_consulted d "a" = Some other_ring /\
  (Views.project_info d "a" (Some "1") ≫= fun info => info !! "author")
    = Some (PyStr "bob").
Proof. split; [reflexivity | by vm_compute]. Qed.

Definition licensed : Project :=
  mkProject (Some "a") (Some "1") None None None None (Some "MIT") None None
            None None None.

Lemma project_info_optional_keys_witness :
  exists info,
    Views.project_info (mkDatabase [] [] [licensed] []) "a" (Some "1")
      = Some info /\
    info !! "license" = Some (PyStr "MIT") /\
    info !! "summary" = None.
Proof.
  eexists. split; [reflexivity|].
  destruct (project_info_optional_keys
              (mkDatabase [] [] [licensed] []) "a" (Some "1") _ eq_refl)
    as (pj & Hpj & Hk & _).
  injection Hpj as <-. split.
  - destruct (Hk "license" (Some "MIT")) as [[_ Hs] Hv].
    { unfold optional_fields. do 4 right. left. }
    destruct (Hs eq_refl) as [x Hx]. rewrite Hx.
    by destruct (Hv x Hx) as [-> _].
  - destruct (Hk "summary" None) as [[Hs _] _].
    { unfold optional_fields. do 10 right. left. }
    apply eq_None_not_Some. intros Hi. by apply Hs in Hi.
Defined.

End ProjectInfo.

(** ** Search *)

Module Search.

Lemma length_app_string (a b : string) :
  String.length (a +:+ b) = (String.length a + String.length b)%nat.
Proof. induction a as [|c a IH]; simpl; [done|]. by rewrite IH. Qed.

(** The pattern [%] matches every string. *)
Lemma like_fuel_percent (s : string) (fuel : nat) :
  (String.length s + 1 < fuel)%nat -> Str.like_fuel fuel "%" s = true.
Proof.
  revert fuel. induction s as [|c s IH]; intros fuel Hf.
  - destruct fuel as [|[|fuel]]; simpl in Hf; try lia. reflexivity.
  - destruct fuel as [|fuel]; [simpl in Hf; lia|].
    cbn [Str.like_fuel]. rewrite (IH fuel) by (simpl in Hf; lia).
    simpl. by rewrite orb_true_r.
Qed.

Lemma like_fuel_S (fuel : nat) (pat s : string) :
  Str.like_fuel (S fuel) pat s =
    match pat with
    | EmptyString =>
        match s with EmptyString => true | String _ _ => false end
    | String p pat' =>
        if Ascii.eqb p "%" then
          (Str.like_fuel fuel pat' s ||
           match s with
           | EmptyString => false
           | String _ s' => Str.like_fuel fuel pat s'
           end)%bool
        else
          match s with
          | EmptyString => false
          | String c s' =>
              if Ascii.eqb p "_" then
                Str.like_fuel fuel pat' (Str.drop_continuation s')
              else
                (Ascii.eqb (Str.lower_ascii p) (Str.lower_ascii c)
                 && Str.like_fuel fuel pat' s')%bool
          end
    end.
Proof. reflexivity. Qed.

Lemma drop_continuation_length (s : string) :
  (String.length (Str.drop_continuation s) <= String.length s)%nat.
Proof.
  induction s as [|c s IH]; [done|]. cbn [Str.drop_continuation].
  destruct (Str.is_continuation c); cbn [String.length]; lia.
Qed.

(** Fuel above the lengths of pattern and string changes nothing: the
    answer of [Str.ilike] is never one for want of fuel. *)
Lemma like_fuel_enough (fuel : nat) (pat s : string) :
  (String.length pat + String.length s < fuel)%nat ->
  Str.like_fuel (S fuel) pat s = Str.like_fuel fuel pat s.
Proof.
  revert pat s. induction fuel as [|fuel IH]; intros pat s Hf; [lia|].
  rewrite (like_fuel_S (S fuel)), (like_fuel_S fuel).
  destruct pat as [|p pat]; [done|]. cbn [String.length] in Hf.
  destruct (Ascii.eqb p "%").
  - rewrite (IH pat s) by lia. f_equal.
    destruct s as [|c s]; [done|]. cbn [String.length] in Hf.
    apply (IH (String p pat) s). cbn [String.length]. lia.
  - destruct s as [|c s]; [done|]. cbn [String.length] in Hf.
    destruct (Ascii.eqb p "_").
    + apply IH. pose proof (drop_continuation_length s). lia.
    + rewrite (IH pat s) by lia. done.
Qed.

Lemma ilike_fuel (pat s : string) (n : nat) :
  Str.like_fuel (S (String.length pat + String.length s) + n) pat s
  = Str.ilike pat s.
Proof.
  induction n as [|n IH]; [by rewrite Nat.add_0_r|].
  rewrite Nat.add_succ_r, like_fuel_enough by lia. done.
Qed.

(** The pattern [%%], which an empty query gives, matches every
    string. *)
Lemma ilike_percent_percent (s : string) : Str.ilike "%%" s = true.
Proof.
  unfold Str.ilike.
  change (Str.like_fuel (S (String.length "%%" + String.length s)) "%%" s)
    with (Str.like_fuel (S (S (String.length s))) "%" s
          || match s with
             | EmptyString => false
             | String _ s' =>
                 Str.like_fuel (S (S (String.length s))) "%%" s'
             end)%bool.
  rewrite like_fuel_percent by lia. done.
Qed.

(** Lower-casing byte by byte, each byte as a character below
    U+0080. *)
Fixpoint fold_ascii (s : string) : string :=
  match s with
  | EmptyString => EmptyString
  | String c s' => String (Str.lower_ascii c) (fold_ascii s')
  end.

Lemma is_ascii_cons (c : ascii) (s : string) :
  Str.is_ascii (String c s) = true ->
  Ascii.eqb c "195" = false /\ Str.is_continuation c = false /\
  Str.is_ascii s = true.
Proof.
  cbn [Str.is_ascii]. intros [Hc Hs]%andb_true_iff.
  apply Nat.ltb_lt in Hc. unfold Str.is_continuation. repeat split; [| |done].
  - destruct (Ascii.eqb_spec c "195") as [->|]; [|done].
    vm_compute in Hc. lia.
  - apply andb_false_iff. left. apply Nat.leb_gt. lia.
Qed.

Lemma is_ascii_app (a b : string) :
  Str.is_ascii (a +:+ b) = (Str.is_ascii a && Str.is_ascii b)%bool.
Proof.
  induction a as [|c a IH]; [done|].
  change (String c a +:+ b) with (String c (a +:+ b)).
  cbn [Str.is_ascii]. by rewrite IH, andb_assoc.
Qed.

(** On text below U+0080 [str.lower] works byte by byte. *)
Lemma lower_is_ascii (s : string) :
  Str.is_ascii s = true -> Str.lower s = fold_ascii s.
Proof.
  induction s as [|c s IH]; [done|].
  intros (Hc & _ & Hs)%is_ascii_cons.
  cbn [Str.lower fold_ascii]. rewrite Hc. by rewrite IH.
Qed.

Lemma drop_continuation_is_ascii (s : string) :
  Str.is_ascii s = true -> Str.drop_continuation s = s.
Proof.
  destruct s as [|c s]; [done|].
  intros (_ & Hc & _)%is_ascii_cons. cbn [Str.drop_continuation].
  by rewrite Hc.
Qed.

Lemma fold_ascii_app (a b : string) :
  fold_ascii (a +:+ b) = fold_ascii a +:+ fold_ascii b.
Proof.
  induction a as [|c a IH]; [done|].
  change (String c a +:+ b) with (String c (a +:+ b)).
  cbn [fold_ascii]. by rewrite IH.
Qed.

Lemma fold_ascii_app_inv (s x y : string) :
  fold_ascii s = x +:+ y ->
  exists a b, s = a +:+ b /\ fold_ascii a = x /\ fold_ascii b = y.
Proof.
  revert s. induction x as [|c x IH]; intros s E.
  - by exists "", s.
  - destruct s as [|d s]; [done|].
    change (String c x +:+ y) with (String c (x +:+ y)) in E.
    cbn [fold_ascii] in E. injection E as Ec E.
    destruct (IH s E) as (a & b & -> & Ha & Hb).
    exists (String d a), b. repeat split; [|done].
    cbn [fold_ascii]. by rewrite Ec, Ha.
Qed.

(** A literal prefix below U+0080, compared up to case, matches as a
    LIKE pattern followed by [%], whatever wildcards it contains. *)
Lemma like_fuel_prefix (q s : string) (fuel : nat) :
  Str.is_ascii s = true ->
  Str.startswith (fold_ascii q) (fold_ascii s) = true ->
  (String.length q + 1 + String.length s < fuel)%nat ->
  Str.like_fuel fuel (q +:+ "%") s = true.
Proof.
  revert s fuel. induction q as [|p q IH]; intros s fuel Ha Hs Hf.
  - apply like_fuel_percent. simpl in Hf. lia.
  - destruct s as [|c s]; [done|].
    apply is_ascii_cons in Ha as (_ & _ & Ha).
    cbn [fold_ascii Str.startswith] in Hs.
    apply andb_true_iff in Hs as [Hc Hs].
    destruct fuel as [|fuel]; [lia|].
    cbn [String.length] in Hf.
    change (String p q +:+ "%") with (String p (q +:+ "%")).
    cbn [Str.like_fuel].
    destruct (Ascii.eqb p "%") eqn:Ep.
    + destruct fuel as [|fuel]; [lia|].
      apply orb_true_iff. right.
      cbn [Str.like_fuel]. rewrite Ep.
      rewrite (IH s fuel) by (done || lia). done.
    + destruct (Ascii.eqb p "_").
      * rewrite (drop_continuation_is_ascii s Ha). apply IH; [done|done|lia].
      * rewrite Hc. simpl. apply IH; [done|done|lia].
Qed.

Lemma like_fuel_contains (q s : string) (fuel : nat) :
  Str.is_ascii s = true ->
  Str.contains (fold_ascii q) (fold_ascii s) = true ->
  (String.length q + 2 + String.length s < fuel)%nat ->
  Str.like_fuel fuel (String "%" (q +:+ "%")) s = true.
Proof.
  revert fuel. induction s as [|c s IH]; intros fuel Ha Hc Hf.
  - destruct fuel as [|fuel]; [lia|].
    cbn [fold_ascii Str.contains] in Hc. rewrite orb_false_r in Hc.
    cbn [Str.like_fuel]. simpl Ascii.eqb. cbv iota.
    rewrite (like_fuel_prefix q "" fuel) by (done || simpl in *; lia). done.
  - destruct fuel as [|fuel]; [lia|].
    cbn [String.length] in Hf.
    cbn [fold_ascii Str.contains] in Hc.
    cbn [Str.like_fuel]. simpl Ascii.eqb. cbv iota.
    apply orb_true_iff in Hc as [Hc|Hc].
    + rewrite (like_fuel_prefix q (String c s) fuel);
        [done | done | done | cbn [String.length]; lia].
    + apply is_ascii_cons in Ha as (_ & _ & Ha).
      rewrite (IH fuel) by (done || lia). by rewrite orb_true_r.
Qed.

Lemma ilike_contains (q s : string) :
  Str.is_ascii s = true ->
  Str.contains (fold_ascii q) (fold_ascii s) = true ->
  Str.ilike ("%" +:+ q +:+ "%") s = true.
Proof.
  intros Ha Hc. unfold Str.ilike. apply (like_fuel_contains q s); [done|done|].
  change ("%" +:+ q +:+ "%") with (String "%" (q +:+ "%")).
  cbn [String.length]. rewrite length_app_string. simpl. lia.
Qed.

Lemma startswith_spec (p s : string) :
  Str.startswith p s = true <-> exists post, s = p +:+ post.
Proof.
  revert s. induction p as [|a p IH]; intros s; simpl.
  - split; [by exists s | done].
  - destruct s as [|b s].
    + split; [done | by intros [post ?]].
    + rewrite andb_true_iff, IH, Ascii.eqb_eq. split.
      * intros [-> [post ->]]. by exists post.
      * intros [post [= -> ->]]. split; [done | by exists post].
Qed.

Lemma contains_spec (q s : string) :
  Str.contains q s = true <-> exists pre post, s = pre +:+ q +:+ post.
Proof.
  induction s as [|c s IH]; cbn [Str.contains];
    rewrite orb_true_iff, startswith_spec.
  - split.
    + intros [[post ->]|]; [by exists "", post | done].
    + intros (pre & post & E). left. destruct pre; [by exists post|done].
  - rewrite IH. split.
    + intros [[post ->]|(pre & post & ->)].
      * by exists "", post.
      * by exists (String c pre), post.
    + intros (pre & post & E). destruct pre as [|a pre].
      * left. by exists post.
      * right. injection E as -> ->. by exists pre, post.
Qed.

(** *** The words of the specification

    Two characters below U+0080 are the same letter when they are
    equal or one is a capital from [A] to [Z] and the other its small
    letter, 32 above. *)
Definition same_letter (a b : ascii) : bool :=
  let x := nat_of_ascii a in
  let y := nat_of_ascii b in
  (Ascii.eqb a b
   || (Nat.leb 65 x && Nat.leb x 90 && Nat.eqb y (x + 32))
   || (Nat.leb 65 y && Nat.leb y 90 && Nat.eqb x (y + 32)))%bool.

(** After the lead byte 195: equal, or a capital from U+00C0 to U+00DE
    other than U+00D7 and its small letter, 32 above. *)
Definition same_latin1 (a b : ascii) : bool :=
  let x := nat_of_ascii a in
  let y := nat_of_ascii b in
  (Ascii.eqb a b
   || (Nat.leb 128 x && Nat.leb x 158 && negb (Nat.eqb x 151)
       && Nat.eqb y (x + 32))
   || (Nat.leb 128 y && Nat.leb y 158 && negb (Nat.eqb y 151)
       && Nat.eqb x (y + 32)))%bool.

(** Two texts whose letters lie below U+0100 are equal up to case:
    character by character the same letter. *)
Fixpoint eq_ci (s t : string) : bool :=
  match s, t with
  | EmptyString, EmptyString => true
  | String a s', String b t' =>
      if (Ascii.eqb a "195" && Ascii.eqb b "195")%bool then
        match s', t' with
        | EmptyString, EmptyString => true
        | String a2 s'', String b2 t'' =>
            (same_latin1 a2 b2 && eq_ci s'' t'')%bool
        | _, _ => false
        end
      else (same_letter a b && eq_ci s' t')%bool
  | _, _ => false
  end.

(** [s] contains [q] case-insensitively: a contiguous part of [s] is
    [q] up to case. *)
Definition occurs_ci (q s : string) : Prop :=
  exists pre mid post, s = pre +:+ mid +:+ post /\ eq_ci q mid = true.

Lemma same_letter_table :
  forallb
    (fun x =>
       forallb
         (fun y =>
            Bool.eqb (same_letter (ascii_of_nat x) (ascii_of_nat y))
                     (Ascii.eqb (Str.lower_ascii (ascii_of_nat x))
                                (Str.lower_ascii (ascii_of_nat y))))
         (seq 0 256))
    (seq 0 256) = true.
Proof. vm_compute. reflexivity. Qed.

(** Being the same letter is having the same small letter. *)
Lemma same_letter_lower (a b : ascii) :
  same_letter a b = Ascii.eqb (Str.lower_ascii a) (Str.lower_ascii b).
Proof.
  pose proof same_letter_table as T.
  rewrite List.forallb_forall in T.
  specialize (T (nat_of_ascii a)).
  rewrite List.forallb_forall in T.
  specialize (T ltac:(apply in_seq; pose proof (nat_ascii_bounded a); lia)
                (nat_of_ascii b)
                ltac:(apply in_seq; pose proof (nat_ascii_bounded b); lia)).
  rewrite !ascii_nat_embedding in T. by apply Bool.eqb_prop.
Qed.

Lemma eq_ci_is_ascii (q m : string) :
  Str.is_ascii q = true ->
  eq_ci q m = true <-> fold_ascii q = fold_ascii m.
Proof.
  revert m. induction q as [|a q IH]; intros m Ha.
  - destruct m; [done|]. split; [done|]. cbn [fold_ascii]. done.
  - destruct m as [|b m]; [split; [done|cbn [fold_ascii]; done]|].
    apply is_ascii_cons in Ha as (Hc & _ & Ha).
    cbn [eq_ci fold_ascii]. rewrite Hc. cbn [andb].
    rewrite andb_true_iff, same_letter_lower, Ascii.eqb_eq, (IH m Ha).
    split; [by intros [-> ->] | by intros [= -> ->]].
Qed.

(** On names below U+0080 the test of the loop is the containment of
    the specification. *)
Lemma contains_occurs_ci (q n : string) :
  Str.is_ascii q = true -> Str.is_ascii n = true ->
  Str.contains (Str.lower q) (Str.lower n) = true <-> occurs_ci q n.
Proof.
  intros Hq Hn. rewrite (lower_is_ascii q Hq), (lower_is_ascii n Hn).
  rewrite contains_spec. unfold occurs_ci. split.
  - intros (pre & post & E).
    apply fold_ascii_app_inv in E as (a & bc & -> & _ & E).
    apply fold_ascii_app_inv in E as (b & c & -> & E & _).
    exists a, b, c. split; [done|]. by apply eq_ci_is_ascii.
  - intros (a & b & c & -> & E). apply eq_ci_is_ascii in E; [|done].
    exists (fold_ascii a), (fold_ascii c).
    by rewrite !fold_ascii_app, E.
Qed.

(** *** The handler *)

(** The test the loop of [search] applies to a project. *)
Definition name_contains (q : string) (pj : Project) : bool :=
  match project_name pj with
  | Some n => Str.contains (Str.lower q) (Str.lower n)
  | None => false
  end.

(** The test of the query that feeds the loop. *)
Definition selected (q : string) (pj : Project) : bool :=
  holds (field_ilike Project_name ("%" +:+ q +:+ "%")) pj.

Lemma selected_named (q : string) (pj : Project) :
  selected q pj = true -> is_Some (project_name pj).
Proof.
  unfold selected. simpl. unfold column, Project_model.
  destruct (project_name pj); [by eexists | done].
Qed.

Lemma name_contains_selected (q n : string) (pj : Project) :
  Str.is_ascii q = true ->
  project_name pj = Some n -> Str.is_ascii n = true ->
  name_contains q pj = true -> selected q pj = true.
Proof.
  unfold name_contains, selected. simpl. unfold column, Project_model.
  intros Hq -> Hn. simpl.
  rewrite (lower_is_ascii q Hq), (lower_is_ascii n Hn).
  by apply ilike_contains.
Qed.

(** The loop collects, in order, the rows that pass the test. *)
Lemma loop_filter (q : string) (pjs acc : list Project) (w : world) :
  Forall (fun pj => is_Some (project_name pj)) pjs ->
  Views.for_each pjs acc
    (fun results pj =>
       let* name := Views.str_attr (project_name pj) in
       if Str.contains (Str.lower q) (Str.lower name)
       then ret (results ++ [pj])%list
       else ret results) w
  = (Return (acc ++ List.filter (name_contains q) pjs)%list, w).
Proof.
  intros Hall. revert acc.
  induction Hall as [|pj pjs [n Hn] _ IH]; intros acc; simpl.
  - by rewrite app_nil_r.
  - unfold bind at 1. unfold bind at 1. rewrite Hn. simpl.
    unfold name_contains at 1. rewrite Hn.
    destruct (Str.contains _ _); simpl; rewrite IH; [|done].
    by rewrite <- app_assoc.
Qed.

(** The projects [search] hands to the template: the rows the query
    selects, then those of them the loop keeps. *)
Definition results_of (req : request) (w : world) : list Project :=
  let q := default "" (args req !! "q") in
  List.filter (name_contains q) (List.filter (selected q) (projects (db w))).

Lemma search_returns (req : request) (w : world) :
  exists avatar,
    Views.search req w
    = (Return (render_template "search_results.html"
                 [("results", CProjects (results_of req w));
                  ("avatar", CUrl avatar)]), w).
Proof.
  destruct (ProfilePages.avatar_url_pure w) as [avatar Hav].
  exists avatar. unfold Views.search, bind at 1, get_world.
  unfold bind at 1. rewrite loop_filter.
  - unfold bind, select_where.
    fold (selected (default "" (args req !! "q"))).
    rewrite Hav. done.
  - apply Forall_forall. intros pj Hin.
    apply list_elem_of_In, filter_In in Hin as [_ Hh].
    by apply (selected_named (default "" (args req !! "q"))).
Qed.

Lemma results_of_elem (req : request) (w : world) (pj : Project) :
  pj ∈ results_of req w <->
  pj ∈ projects (db w) /\
  selected (default "" (args req !! "q")) pj = true /\
  name_contains (default "" (args req !! "q")) pj = true.
Proof.
  unfold results_of. cbv zeta.
  rewrite list_elem_of_In, !filter_In, <- list_elem_of_In. tauto.
Qed.

Lemma filter_sublist {A} (P : A -> bool) (l : list A) :
  sublist (List.filter P l) l.
Proof.
  induction l as [|x l IH]; simpl; [constructor|].
  destruct (P x); [by apply sublist_skip | by apply sublist_cons].
Qed.

(** The project named [É], U+00C9, and the query [é], U+00E9. *)
Definition capital_e_acute : string := String "195" (String "137" "").
Definition small_e_acute : string := String "195" (String "169" "").

Definition accented : Project :=
  mkProject (Some capital_e_acute) (Some "1")
            None None None None None None None None None None.

Definition w_accented : world :=
  mkWorld (mkDatabase [] [] [accented] []) ∅ ∅ None [] [].



Definition foobar : Project :=
  mkProject (Some "FooBar") (Some "1")
            None None None None None None None None None None.

Definition baz : Project :=
  mkProject (Some "baz") (Some "1")
            None None None None None None None None None None.

Definition w_foobar : world :=
  mkWorld (mkDatabase [] [] [baz; foobar] []) ∅ ∅ None [] [].


End Search.

(** ** Ring upload *)

Module RingUpload.
Section upload.

Variable calculate_sha256 : option bytes -> exn + string.
Variable add_ring : add_ring_kwargs -> database -> exn + database.

(** The keyword arguments the POST branch builds from the JSON body,
    the uploaded file name and a checksum. *)
Definition kwargs_of (req : request) (file : FileStorage) (sha256 : string)
  : add_ring_kwargs :=
  mkAddRing (Views.dict_get (json req) "name" PyNone)
            (Views.dict_get (json req) "version" (PyStr ""))
            (Views.dict_get (json req) "platform" (PyStr ""))
            (Views.dict_get (json req) "author" (PyStr ""))
            (Views.dict_get (json req) "author_email" (PyStr ""))
            (Views.dict_get (json req) "require_dist" (PyStr ""))
            (Views.dict_get (json req) "require_mojo" (PyStr ""))
            (filename file) sha256.

(** The POST branch of [ring_file] on a JSON request carrying a named
    file. *)
Lemma ring_file_post (w : world) (req : request)
  (name version platform : string) (file : FileStorage) :
  method req = POST -> is_json req = true ->
  req_files req !! "file" = Some file ->
  filename file <> "" ->
  Views.ring_file calculate_sha256 add_ring req name version platform w =
    (let* sha256 := Views.sha256_at calculate_sha256 RINGS_PATH (filename file) in
     if bool_decide (Views.dict_get (json req) "name" PyNone = PyNone) then
       abort 422 (Some "name not provided.")
     else
       try_except
         (Views.call_add_ring add_ring (kwargs_of req file sha256))
         (Views.is_exn InvalidInputError)
         (abort 400 (Some "Upload failed. Duplicate ring."));;
       file_save file RINGS_PATH (filename file);;
       ret returns_None) w.
Proof.
  intros Hm Hj Hf Hn. unfold Views.ring_file, bind at 1, get_world.
  rewrite Hm, Hj, Hf. simpl negb. cbv iota.
  apply String.eqb_neq in Hn. by rewrite Hn.
Qed.

(** The same once the checksum call has returned [h] and the body names
    the ring: what remains depends on [add_ring] alone. *)
Lemma ring_file_named (w : world) (req : request)
  (name version platform : string) (file : FileStorage) (h : string) :
  method req = POST -> is_json req = true ->
  req_files req !! "file" = Some file ->
  filename file <> "" ->
  Views.dict_get (json req) "name" PyNone <> PyNone ->
  calculate_sha256 (ring_files w !! filename file) = inr h ->
  Views.ring_file calculate_sha256 add_ring req name version platform w =
    let w_read := log (EvReadFile RINGS_PATH (filename file)) w in
    match add_ring (kwargs_of req file h) (db w) with
    | inr d' =>
        let w_added := log (EvAddRing (kwargs_of req file h))
                           (set_db d' w_read) in
        (Return returns_None,
         log (EvWriteFile RINGS_PATH (filename file) (stream file))
             (set_ring_files
                (<[filename file := stream file]> (ring_files w_added))
                w_added))
    | inl e =>
        if Views.is_exn InvalidInputError e
        then (Abort 400 (Some "Upload failed. Duplicate ring."), w_read)
        else (Raise e, w_read)
    end.
Proof.
  intros Hm Hj Hf Hn Hname Hsha.
  rewrite (ring_file_post w req name version platform file Hm Hj Hf Hn).
  unfold bind at 1, Views.sha256_at. cbn [files]. rewrite Hsha.
  rewrite (bool_decide_eq_false_2 _ Hname).
  unfold bind, try_except, Views.call_add_ring, file_save.
  cbn [db log]. apply String.eqb_neq in Hn. rewrite Hn.
  destruct (add_ring _ _) as [e|d']; [|done].
  by destruct (Views.is_exn InvalidInputError e).
Qed.


End upload.

(** A toy checksum: whether the content is empty, an error without a
    file. *)
Definition toy_sha256 (content : option bytes) : exn + string :=
  match content with
  | Some b => inr (if decide (length b = 0)%nat then "empty" else "nonempty")
  | None => inl (OtherError "FileNotFoundError")
  end.

(** A toy [add_ring]: a row with the given name, file name and checksum;
    a second ring with a stored file name is rejected. *)
Definition toy_add_ring (k : add_ring_kwargs) (d : database)
  : exn + database :=
  if existsb (fun r => bool_decide (ring_file_name r = Some (kw_file_name k)))
             (rings d)
  then inl InvalidInputError
  else inr (mkDatabase (users d) (profiles d) (projects d)
              (rings d ++ [mkRing (match kw_name k with
                                   | PyStr s => Some s
                                   | _ => None
                                   end)
                                  None None None None None None
                                  (Some (kw_file_name k))
                                  (Some (kw_sha256 k)) None])%list).

Definition upload_req : request :=
  mkRequest POST ∅ ∅
    {[ "file" := mkFileStorage "pkg.ring" [Byte.x01; Byte.x02] ]}
    true {[ "name" := PyStr "pkg" ]}.

(** The destination already holds an empty file. *)
Definition w2 : world :=
  mkWorld (mkDatabase [] [] [] []) ∅ {[ "pkg.ring" := [] ]} None [] [].


End RingUpload.

(** ** Avatar upload and fetch *)

Module Avatar.
Section avatar.

Variable secure_filename : string -> string.

(** The name [profile_pic_upload] stores an upload under. *)
Definition stored_name (cu : User) (file : FileStorage) : string :=
  fmt (user_username cu) +:+ Path_suffix (secure_filename (filename file)).

Lemma stored_name_nonempty (cu : User) (file : FileStorage) :
  truthy (user_username cu) = true -> stored_name cu file <> "".
Proof.
  unfold stored_name. destruct (user_username cu) as [[|c n]|]; try done.
Qed.

Lemma truthy_nonempty (s : string) : s <> "" -> truthy (Some s) = true.
Proof. by destruct s. Qed.

(** Saving a row that differs from the stored one in other columns
    only keeps the constraints. *)
Lemma users_wf_saved (tbl : list User) (u u' : User) :
  users_wf tbl -> u ∈ tbl ->
  user_id u' = user_id u ->
  user_username u' = user_username u ->
  user_email u' = user_email u ->
  users_wf ((fun v => if bool_decide (user_id v = user_id u') then u' else v)
              <$> tbl).
Proof.
  intros (Hid & Hn & He & Hs) Hin Ei En Ee.
  assert (Hsame : forall v, v ∈ tbl -> user_id v = user_id u' -> v = u).
  { intros v Hv Ev. apply (Rows.NoDup_fmap_eq user_id tbl); [done..|congruence]. }
  assert (Hcol : forall {B} (f : User -> B), f u' = f u ->
            f <$> ((fun v => if bool_decide (user_id v = user_id u')
                             then u' else v) <$> tbl) = f <$> tbl).
  { intros B f Ef. rewrite <- list_fmap_compose.
    apply list_fmap_ext. intros i v Hv. simpl.
    case_bool_decide as Ev; [|done].
    rewrite Ef. f_equal. symmetry.
    apply Hsame; [|done]. by apply list_elem_of_lookup_2 in Hv. }
  unfold users_wf. rewrite !Hcol by done. repeat split; try done.
  apply Forall_fmap, Forall_forall. intros v Hv. simpl.
  rewrite Forall_forall in Hs.
  case_bool_decide; [|by apply Hs].
  rewrite En, Ee. by apply Hs.
Qed.

(** One upload by an authenticated user with a non-empty username. *)
Lemma upload_once (w : world) (req : request) (cu : User)
  (file : FileStorage) :
  Views.requester w = Some cu ->
  users_wf (users (db w)) ->
  truthy (user_username cu) = true ->
  req_files req !! "file" = Some file ->
  filename file <> "" ->
  exists w',
    Views.profile_pic_upload secure_filename req w
      = (Return (json_body
                   [("message", PyStr "Profile picture saved successfully.")]),
         w') /\
    Views.requester w'
      = Some (Views.with_picture cu (Some (stored_name cu file))) /\
    users_wf (users (db w')) /\
    pic_files w' = <[stored_name cu file := stream file]> (pic_files w).
Proof.
  intros Hcu Hwf Hname Hf Hn.
  destruct (Rows.requester_row w cu Hcu) as [Hin Hs].
  pose proof (stored_name_nonempty cu file Hname) as Hst.
  unfold Views.profile_pic_upload, bind at 1, Views.current_user.
  rewrite Hcu, Hf. fold (stored_name cu file).
  assert (truthy file = true) as ->.
  { unfold truthy, FileStorage_truthy. by destruct (filename file). }
  apply String.eqb_neq in Hn, Hst. rewrite Hn.
  unfold bind, file_save, Views.User_save. rewrite Hst.
  cbn [db log set_files set_pic_files users].
  rewrite (Rows.user_conflict_same_keys _ cu) by done.
  eexists. split; [reflexivity|].
  cbn [db log set_db set_pic_files set_files users pic_files session files].
  split; [|split; [by apply (users_wf_saved _ cu)|done]].
  unfold Views.requester, Views.load_user.
  cbn [session db log set_db set_pic_files set_files users]. rewrite Hs. cbn [mbind option_bind].
  by apply (Rows.load_saved (users (db w)) cu
              (Views.with_picture cu (Some (stored_name cu file)))).
Qed.

(** Fetching one's own avatar when the recorded file is there. *)
Lemma fetch_own (w : world) (u : User) (name : string) (body : bytes) :
  Views.requester w = Some u ->
  user_picture u = Some name -> name <> "" ->
  pic_files w !! name = Some body ->
  fst (Views.get_profile_pic None w)
    = Return (send_from_directory PIC_PATH name body) /\
  fst (Views.get_profile_pic (Some (user_id u)) w)
    = Return (send_from_directory PIC_PATH name body).
Proof.
  intros Hu Hp Hn Hb.
  assert (Hl : Views.load_user (user_id u) w = Some u).
  { destruct (Rows.requester_row w u Hu) as [_ Hs].
    unfold Views.requester in Hu. by rewrite Hs in Hu. }
  assert (Hk : forall w0, pic_files w0 = pic_files w ->
    fst ((let* w1 := get_world in
          if (truthy (user_picture u) &&
              is_file PIC_PATH (fmt (user_picture u)) w1)%bool
          then send_from PIC_PATH (fmt (user_picture u))
          else abort 404 (Some "Profile picture not found.")) w0)
    = Return (send_from_directory PIC_PATH name body)).
  { intros w0 Hw0. unfold bind, get_world. rewrite Hp.
    rewrite (truthy_nonempty name Hn). unfold is_file, send_from, fmt.
    cbn [files]. rewrite Hw0, Hb.
    rewrite bool_decide_eq_true_2 by (by eexists).
    cbn [andb]. by rewrite Hw0, Hb. }
  split.
  - unfold Views.get_profile_pic. unfold bind at 1.
    unfold bind at 1, Views.current_user. rewrite Hu. by apply Hk.
  - unfold Views.get_profile_pic. unfold bind at 1, try_except.
    rewrite ProfilePages.User_get_by_id_load, Hl. by apply Hk.
Qed.


End avatar.

Definition upload (name : string) (body : bytes) : request :=
  mkRequest POST ∅ ∅ {[ "file" := mkFileStorage name body ]} false ∅.

(** [secure_filename] leaves [a.png] and [b.jpg] as they are. *)
Definition keep_name (s : string) : string := s.

Definition after_png : world :=
  snd (Views.profile_pic_upload keep_name (upload "a.png" [Byte.x01])
                                Accounts.w1).
Definition after_jpg : world :=
  snd (Views.profile_pic_upload keep_name (upload "b.jpg" [Byte.x02])
                                after_png).



End Avatar.

(** * The remaining views *)

Module MoreViews.
Section more.

(** Helpers of [models.py] that [register] calls; their code is not part
    of the sources at hand.  [add_user] returns the new user and the
    database with it, or raises. *)
Variable is_valid_email : option string -> bool.
Variable is_valid_username : option string -> bool.
Variable add_user :
  option string -> option string -> option string -> database ->
  exn + (User * database).

Definition index : M response :=
  let* cu := Views.current_user in
  match cu with
  | Some _ =>
      let* avatar := Views.avatar_url in
      ret (render_template "index.html" [("avatar", CUrl avatar)])
  | None => ret (render_template "index.html" [])
  end.

(** The call of [add_user] on the database of the moment. *)
Definition call_add_user (email username password : option string) : M User :=
  fun w =>
    match add_user email username password (db w) with
    | inl e => (Raise e, w)
    | inr (user, d) => (Return user, set_db d w)
    end.

Definition register_failed : M response :=
  flash "Register failed. Invalid email and username.";;
  ret (redirect (UrlFor "mbp.index" [])).

Definition register (req : request) : M response :=
  match method req with
  | GET => ret (render_template "register.html" [])
  | POST =>
      let email := form req !! "email" in
      let username := form req !! "username" in
      let password := form req !! "password" in
      if (negb (is_valid_email email) || negb (is_valid_username username))%bool
      then register_failed
      else
        (* try: user, _ = add_user(...)
           except InvalidInputError: flash(...); return redirect(...) *)
        let* added :=
          try_except
            (let* user := call_add_user email username password in
             ret (inr user))
            (Views.is_exn InvalidInputError)
            (let* r := register_failed in ret (inl r)) in
        match added with
        | inl r => ret r
        | inr user =>
            Views.login_user user;;
            flash "Register successfully.";;
            ret (redirect (UrlFor "mbp.index" []))
        end
  end.

(** [f"/profile/{id}"] *)
Definition profile_path (id : Z) : string :=
  "/profile/" +:+ NilZero.string_of_int (Z.to_int id).

Definition profile_self : M response :=
  let* cu := Views.current_user in
  match cu with
  | None => ret (redirect (UrlFor "mbp.login" [("next", PyStr "/profile")]))
  | Some cu => ret (redirect (UrlStr (profile_path (user_id cu))))
  end.

Definition settings : M response :=
  let* cu := Views.current_user in
  match cu with
  | None => abort 401 (Some "Need to login to view settings.")
  | Some _ =>
      let* avatar := Views.avatar_url in
      ret (render_template "settings.html" [("avatar", CUrl avatar)])
  end.

(** [logout_user()] *)
Definition logout_user : M unit := modify (set_session None).

Definition logout : M response :=
  logout_user;;
  ret (redirect (UrlFor "mbp.index" [])).

End more.
End MoreViews.

(** ** Sessions: who is logged in, and what that allows *)

Module Sessions.

(** With unique ids a stored row is the one its id loads. *)
Lemma load_unique (tbl : list User) (u : User) :
  NoDup (user_id <$> tbl) -> u ∈ tbl ->
  get_or_none (field_eq User_id (PyInt (user_id u))) tbl = Some u.
Proof.
  intros Hnd Hin. induction tbl as [|x tbl IH]; [by apply elem_of_nil in Hin|].
  rewrite Rows.get_or_none_cons, Rows.holds_user_id.
  case_bool_decide as Ex.
  - f_equal. apply (Rows.NoDup_fmap_eq user_id (x :: tbl)); [done|left|done..].
  - apply IH.
    + rewrite fmap_cons in Hnd. by apply NoDup_cons in Hnd as [_ ?].
    + apply elem_of_cons in Hin as [->|]; [done|done].
Qed.

Lemma holds_user_email (e : option string) (u : User) :
  holds (field_eq User_email (of_text e)) u = bool_decide (user_email u = e).
Proof.
  rewrite AndFilter.holds_field_eq_text. unfold column, User_model.
  destruct (user_email u), e; simpl;
    repeat case_bool_decide; congruence.
Qed.

(** With unique emails a stored row is the one its email finds. *)
Lemma find_by_email (tbl : list User) (u : User) :
  NoDup (user_email <$> tbl) -> u ∈ tbl ->
  get_or_none (field_eq User_email (of_text (user_email u))) tbl = Some u.
Proof.
  intros Hnd Hin. induction tbl as [|x tbl IH]; [by apply elem_of_nil in Hin|].
  rewrite Rows.get_or_none_cons, holds_user_email.
  case_bool_decide as Ex.
  - f_equal. apply (Rows.NoDup_fmap_eq user_email (x :: tbl)); [done|left|done..].
  - apply IH.
    + rewrite fmap_cons in Hnd. by apply NoDup_cons in Hnd as [_ ?].
    + apply elem_of_cons in Hin as [->|]; [done|done].
Qed.

Section sessions.

Variable verify_password : option string -> option string -> bool.
Variable hash_password : option string -> string.
Variable secure_filename : string -> string.

(** X1.  Without an authenticated requester (no session, or a session
    whose user no longer exists) the owner-only views stop at their
    first check, whatever the request: [reset_password], [edit_profile],
    [profile_pic_upload], [get_profile_pic] without an id and [settings]
    abort with 401 and leave the world as it is; [profile_self] sends
    the requester to the login page instead. *)
Theorem owner_only_needs_login (w : world) (req : request) :
  Views.requester w = None ->
  Views.reset_password hash_password req w = (Abort 401 None, w) /\
  Views.edit_profile req w = (Abort 401 None, w) /\
  Views.profile_pic_upload secure_filename req w = (Abort 401 None, w) /\
  Views.get_profile_pic None w = (Abort 401 None, w) /\
  MoreViews.settings w
    = (Abort 401 (Some "Need to login to view settings."), w) /\
  MoreViews.profile_self w
    = (Return (redirect (UrlFor "mbp.login" [("next", PyStr "/profile")])), w).
Proof.
  intros Hr.
  repeat split;
    unfold Views.reset_password, Views.edit_profile, Views.profile_pic_upload,
      Views.get_profile_pic, MoreViews.settings, MoreViews.profile_self,
      bind, Views.current_user;
    by rewrite Hr.
Qed.

(** X2.  [logout] ends the session and nothing else: database and files
    are as before, and from the world it leaves the owner-only views
    abort with 401. *)
Theorem logout_ends_session (w : world) (req : request) :
  exists w',
    MoreViews.logout w = (Return (redirect (UrlFor "mbp.index" [])), w') /\
    Views.requester w' = None /\
    db w' = db w /\ pic_files w' = pic_files w /\ ring_files w' = ring_files w /\
    Views.reset_password hash_password req w' = (Abort 401 None, w') /\
    Views.edit_profile req w' = (Abort 401 None, w') /\
    Views.profile_pic_upload secure_filename req w' = (Abort 401 None, w').
Proof.
  exists (set_session None w). repeat split.
Qed.

(** The POST branch of [login] when the email finds no user. *)
Lemma login_post_unknown (w : world) (req : request) :
  method req = POST ->
  get_or_none (field_eq User_email (of_text (form req !! "email")))
              (users (db w)) = None ->
  Views.login verify_password req w
  = (Return (redirect (UrlFor "mbp.login" [])), add_flash "Email incorrect." w).
Proof.
  intros Hm Hu. unfold Views.login. rewrite Hm.
  unfold bind at 1, get_world. by rewrite Hu.
Qed.

(** X3.  [login] never writes to the database or the files, and it
    changes the session only to the user the posted email finds, and
    only when that user has no stored hash or the posted password
    verifies against it. *)
Theorem login_session_sound (w : world) (req : request) :
  let r := Views.login verify_password req w in
  db (snd r) = db w /\
  pic_files (snd r) = pic_files w /\
  ring_files (snd r) = ring_files w /\
  trace (snd r) = trace w /\
  (session (snd r) = session w \/
   exists user,
     method req = POST /\
     get_or_none (field_eq User_email (of_text (form req !! "email")))
                 (users (db w)) = Some user /\
     session (snd r) = Some (user_id user) /\
     (truthy (user_password user) = false \/
      verify_password (form req !! "password") (user_password user) = true)).
Proof.
  cbv zeta. destruct (method req) eqn:Hm.
  - unfold Views.login. rewrite Hm. by repeat split; try left.
  - destruct (get_or_none (field_eq User_email (of_text (form req !! "email")))
                (users (db w))) as [user|] eqn:Hu.
    + rewrite (Accounts.login_post verify_password w req user Hm Hu).
      destruct (truthy (user_password user)) eqn:Et; simpl.
      * destruct (verify_password _ _) eqn:Ev; simpl.
        -- repeat split; try done. right. exists user. by repeat split; try right.
        -- repeat split; try done. by left.
      * repeat split; try done. right. exists user. by repeat split; try left.
    + rewrite (login_post_unknown w req Hm Hu).
      repeat split; try done. by left.
Qed.

(** X4.  After a login that succeeds the requester of the next request
    is the user the email found, provided the [User] table keeps its
    constraints. *)
Theorem login_then_requester (w : world) (req : request) (user : User) :
  users_wf (users (db w)) ->
  method req = POST ->
  get_or_none (field_eq User_email (of_text (form req !! "email")))
              (users (db w)) = Some user ->
  (truthy (user_password user) = false \/
   verify_password (form req !! "password") (user_password user) = true) ->
  Views.requester (snd (Views.login verify_password req w)) = Some user.
Proof.
  intros (Hid & _) Hm Hu Hok.
  rewrite (Accounts.login_post verify_password w req user Hm Hu).
  apply Rows.get_or_none_elem in Hu as [Hin _].
  assert (Hl : forall msg,
             Views.requester
               (add_flash msg (set_session (Some (user_id user)) w)) = Some user).
  { intros msg. unfold Views.requester, Views.load_user. simpl session.
    cbn [mbind option_bind]. by apply load_unique. }
  destruct (truthy (user_password user)) eqn:Et; simpl.
  - destruct Hok as [|Hv]; [done|]. rewrite Hv. apply Hl.
  - apply Hl.
Qed.

(** X5.  A password reset followed by a login with the new password:
    when the hash verifies the password it was made from, the login
    starts the session of the user who reset, and the row then holds
    the new hash. *)
Theorem reset_then_login (w : world) (req1 req2 : request) (cu : User) :
  users_wf (users (db w)) ->
  Views.requester w = Some cu ->
  method req1 = POST ->
  form req1 !! "new-password" = form req1 !! "confirm-password" ->
  method req2 = POST ->
  form req2 !! "email" = user_email cu ->
  form req2 !! "password" = form req1 !! "new-password" ->
  verify_password (form req1 !! "new-password")
    (Some (hash_password (form req1 !! "new-password"))) = true ->
  exists r1 w1 r2 w2,
    Views.reset_password hash_password req1 w = (Return r1, w1) /\
    Views.login verify_password req2 w1 = (Return r2, w2) /\
    session w2 = Some (user_id cu) /\
    (user_password <$> Views.requester w2)
      = Some (Some (hash_password (form req1 !! "new-password"))).
Proof.
  intros Hwf Hcu Hm1 Heq Hm2 He Hp Hv.
  destruct (Rows.requester_row w cu Hcu) as [Hin Hs].
  set (new := form req1 !! "new-password") in *.
  set (cu' := Views.with_password cu (Some (hash_password new))).
  set (tbl' := (fun v => if bool_decide (user_id v = user_id cu') then cu' else v)
                 <$> users (db w)).
  assert (Hwf' : users_wf tbl') by by apply (Avatar.users_wf_saved _ cu).
  assert (Hin' : cu' ∈ tbl').
  { apply (list_elem_of_fmap_2' _ _ cu); [done|]. by rewrite bool_decide_eq_true_2. }
  rewrite (Accounts.reset_password_post hash_password w req1 cu Hm1 Hcu).
  fold new. rewrite bool_decide_eq_true_2 by done. cbv zeta. fold cu'.
  unfold Views.User_save.
  rewrite (Rows.user_conflict_same_keys _ cu) by done. fold tbl'.
  set (w1 := add_flash "New password set!" _).
  assert (Hdb : users (db w1) = tbl') by reflexivity.
  assert (Hu : get_or_none (field_eq User_email (of_text (form req2 !! "email")))
                           (users (db w1)) = Some cu').
  { rewrite Hdb, He. destruct Hwf' as (_ & _ & Hne & _).
    by apply (find_by_email tbl' cu'). }
  assert (Hl : forall msg,
             Views.requester
               (add_flash msg (set_session (Some (user_id cu')) w1)) = Some cu').
  { intros msg. unfold Views.requester, Views.load_user.
    cbn [session add_flash set_session mbind option_bind db].
    rewrite Hdb. destruct Hwf' as (Hnd & _). by apply load_unique. }
  pose proof (Accounts.login_post verify_password w1 req2 cu' Hm2 Hu) as El.
  rewrite Hp in El. fold new in El.
  change (user_password cu') with (Some (hash_password new)) in El.
  rewrite Hv in El.
  exists (redirect (UrlFor "mbp.settings" [])), w1.
  destruct (negb (truthy (Some (hash_password new))));
    (eexists _, _; split; [reflexivity|]; split; [exact El|];
     split; [reflexivity|]; by rewrite Hl).
Qed.

End sessions.

Section registration.

Variable is_valid_email : option string -> bool.
Variable is_valid_username : option string -> bool.
Variable add_user :
  option string -> option string -> option string -> database ->
  exn + (User * database).

(** X6.  [register] leaves the files alone, and either leaves session
    and database alone too, or the posted email and username passed both
    validators and [add_user] returned a user on the database of before:
    then the session is that user's, the database is the one [add_user]
    returned, and the response is the redirect to the index page. *)
Theorem register_sound (w : world) (req : request) :
  let r := MoreViews.register is_valid_email is_valid_username add_user req w in
  pic_files (snd r) = pic_files w /\
  ring_files (snd r) = ring_files w /\
  ((session (snd r) = session w /\ db (snd r) = db w) \/
   exists user d,
     method req = POST /\
     is_valid_email (form req !! "email") = true /\
     is_valid_username (form req !! "username") = true /\
     add_user (form req !! "email") (form req !! "username")
              (form req !! "password") (db w) = inr (user, d) /\
     session (snd r) = Some (user_id user) /\
     db (snd r) = d /\
     fst r = Return (redirect (UrlFor "mbp.index" []))).
Proof.
  cbv zeta. unfold MoreViews.register.
  destruct (method req); [by repeat split; try left|].
  destruct (is_valid_email _) eqn:Ee; simpl; [|by repeat split; try left].
  destruct (is_valid_username _) eqn:En; simpl; [|by repeat split; try left].
  unfold bind, try_except, MoreViews.call_add_user.
  destruct (add_user _ _ _ _) as [e|[user d]] eqn:Ea.
  - destruct e; simpl; by repeat split; try left.
  - simpl. repeat split; try done. right. exists user, d. by repeat split.
Qed.

End registration.

Definition stale : world :=
  mkWorld (mkDatabase [Accounts.bob] [] [] []) ∅ ∅ (Some 99) [] [].

Lemma owner_only_needs_login_witness :
  Views.edit_profile (Accounts.post [("username", "mallory")]) stale
  = (Abort 401 None, stale).
Proof.
  apply (owner_only_needs_login Accounts.toy_hash Avatar.keep_name stale
           (Accounts.post [("username", "mallory")])).
  reflexivity.
Defined.

Lemma login_then_requester_witness :
  Views.requester
    (snd (Views.login Accounts.toy_verify
            (Accounts.post [("email", "b@x.com"); ("password", "pw1")])
            stale))
  = Some Accounts.bob.
Proof.
  apply (login_then_requester Accounts.toy_verify stale
           (Accounts.post [("email", "b@x.com"); ("password", "pw1")])
           Accounts.bob).
  - unfold users_wf. simpl. repeat split; compute_done.
  - reflexivity.
  - reflexivity.
  - right. reflexivity.
Defined.

Lemma reset_then_login_witness :
  exists r1 w1 r2 w2,
    Views.reset_password Accounts.toy_hash
      (Accounts.post [("new-password", "n3w"); ("confirm-password", "n3w")])
      Accounts.w1 = (Return r1, w1) /\
    Views.login Accounts.toy_verify
      (Accounts.post [("email", "b@x.com"); ("password", "n3w")]) w1
      = (Return r2, w2) /\
    session w2 = Some 7 /\
    (user_password <$> Views.requester w2) = Some (Some "h:n3w").
Proof.
  apply (reset_then_login Accounts.toy_verify Accounts.toy_hash Accounts.w1
           (Accounts.post [("new-password", "n3w"); ("confirm-password", "n3w")])
           (Accounts.post [("email", "b@x.com"); ("password", "n3w")])
           Accounts.bob Accounts.w1_wf);
    reflexivity.
Defined.

End Sessions.

(** ** More on avatars *)

Module AvatarMore.
Section avatar_more.

Variable secure_filename : string -> string.

(** What an upload does once the requester and the file part are there,
    in terms of the save of the row. *)
Lemma upload_eq (w : world) (req : request) (cu : User) (file : FileStorage) :
  Views.requester w = Some cu ->
  req_files req !! "file" = Some file ->
  filename file <> "" ->
  let name := Avatar.stored_name secure_filename cu file in
  let w_file := log (EvWriteFile PIC_PATH name (stream file))
                    (set_pic_files (<[name := stream file]> (pic_files w)) w) in
  Views.profile_pic_upload secure_filename req w =
    if String.eqb name "" then (Raise (OtherError "IsADirectoryError"), w)
    else
      match Views.User_save (Views.with_picture cu (Some name)) w_file with
      | (Return _, w') =>
          (Return (json_body
                     [("message", PyStr "Profile picture saved successfully.")]),
           w')
      | (Abort c d, w') => (Abort c d, w')
      | (Raise e, w') => (Raise e, w')
      end.
Proof.
  intros Hcu Hf Hn. cbv zeta.
  unfold Views.profile_pic_upload, bind at 1, Views.current_user.
  rewrite Hcu, Hf. fold (Avatar.stored_name secure_filename cu file).
  assert (truthy file = true) as ->.
  { unfold truthy, FileStorage_truthy. by destruct (filename file). }
  apply String.eqb_neq in Hn. rewrite Hn. clear Hn.
  unfold bind at 1, file_save.
  destruct (String.eqb (Avatar.stored_name secure_filename cu file) "");
    [done|].
  cbn [files set_files]. unfold bind at 1.
  by destruct (Views.User_save _ _) as [[]].
Qed.

(** The three ways an upload can end before anything is written. *)
Lemma upload_early (w : world) (req : request) :
  (Views.requester w = None \/
   req_files req !! "file" = None \/
   exists file, req_files req !! "file" = Some file /\ filename file = "") ->
  exists d,
    Views.profile_pic_upload secure_filename req w = (Abort d.1 d.2, w) /\
    d <> (400, Some "Invalid file.").
Proof.
  intros Hc. unfold Views.profile_pic_upload, bind at 1, Views.current_user.
  destruct (Views.requester w) as [cu|]; [|by exists (401, None)].
  destruct (req_files req !! "file") as [file|] eqn:Hf;
    [|by exists (400, Some "No file provided.")].
  destruct Hc as [|[|(file' & [= <-] & Hn)]]; [done..|].
  rewrite Hn. by exists (400, Some "Empty filename.").
Qed.

(** X7.  An upload request without a file part is refused with 400 [No
    file provided.], one whose file has an empty name with 400 [Empty
    filename.], both before anything is written; and no request at all
    is answered with 400 [Invalid file.]: a file with a non-empty name
    always passes the test that guards that answer. *)
Theorem upload_refusals (w : world) (req : request) :
  (forall cu, Views.requester w = Some cu ->
     (req_files req !! "file" = None ->
      Views.profile_pic_upload secure_filename req w
        = (Abort 400 (Some "No file provided."), w)) /\
     (forall file, req_files req !! "file" = Some file -> filename file = "" ->
      Views.profile_pic_upload secure_filename req w
        = (Abort 400 (Some "Empty filename."), w))) /\
  fst (Views.profile_pic_upload secure_filename req w)
    <> Abort 400 (Some "Invalid file.").
Proof.
  split.
  - intros cu Hcu. split.
    + intros Hf. unfold Views.profile_pic_upload, bind at 1, Views.current_user.
      by rewrite Hcu, Hf.
    + intros file Hf Hn.
      unfold Views.profile_pic_upload, bind at 1, Views.current_user.
      by rewrite Hcu, Hf, Hn.
  - destruct (Views.requester w) as [cu|] eqn:Hcu.
    2:{ destruct (upload_early w req) as ([c d] & -> & Hd); [by left|].
        simpl. congruence. }
    destruct (req_files req !! "file") as [file|] eqn:Hf.
    2:{ destruct (upload_early w req) as ([c d] & -> & Hd); [by right; left|].
        simpl. congruence. }
    destruct (decide (filename file = "")) as [Hn|Hn].
    { destruct (upload_early w req) as ([c d] & -> & Hd);
        [right; right; by exists file|].
      simpl. congruence. }
    rewrite (upload_eq w req cu file Hcu Hf Hn). cbv zeta.
    destruct (String.eqb _ ""); [done|].
    unfold Views.User_save.
    by destruct (Views.user_conflict _ _).
Qed.

(** X8.  In a picture directory whose files have plain names, and
    for a requester whose avatar name [<username><suffix>] is plain:
    whatever the request and however it ends, an upload leaves the
    rings directory, the session and the profile, project and ring
    tables as they are; the only file of the picture directory it can
    change is [<username><suffix>] of the requester, which then holds
    the uploaded bytes; and the files of the directory still have plain
    names, so that no other file is written or removed. *)
Theorem upload_touches_one_file (w : world) (req : request) :
  (forall name, is_Some (pic_files w !! name) -> plain_name name = true) ->
  (forall cu file,
     Views.requester w = Some cu -> req_files req !! "file" = Some file ->
     plain_name (Avatar.stored_name secure_filename cu file) = true) ->
  let w' := snd (Views.profile_pic_upload secure_filename req w) in
  ring_files w' = ring_files w /\
  session w' = session w /\
  profiles (db w') = profiles (db w) /\
  projects (db w') = projects (db w) /\
  rings (db w') = rings (db w) /\
  (forall name, is_Some (pic_files w' !! name) -> plain_name name = true) /\
  (forall name, pic_files w' !! name <> pic_files w !! name ->
     exists cu file,
       Views.requester w = Some cu /\
       req_files req !! "file" = Some file /\
       name = Avatar.stored_name secure_filename cu file /\
       pic_files w' !! name = Some (stream file)).
Proof.
  intros Hkeys Hplain. cbv zeta.
  assert (Hearly : forall d,
            Views.profile_pic_upload secure_filename req w = (Abort d.1 d.2, w) ->
            let w' := snd (Views.profile_pic_upload secure_filename req w) in
            ring_files w' = ring_files w /\ session w' = session w /\
            profiles (db w') = profiles (db w) /\
            projects (db w') = projects (db w) /\
            rings (db w') = rings (db w) /\
            (forall name, is_Some (pic_files w' !! name) ->
                          plain_name name = true) /\
            (forall name, pic_files w' !! name <> pic_files w !! name ->
               exists cu file,
                 Views.requester w = Some cu /\
                 req_files req !! "file" = Some file /\
                 name = Avatar.stored_name secure_filename cu file /\
                 pic_files w' !! name = Some (stream file))).
  { intros d ->. by repeat split. }
  destruct (Views.requester w) as [cu|] eqn:Hcu.
  2:{ destruct (upload_early w req) as (d & Hd & _); [by left|]. by apply (Hearly d). }
  destruct (req_files req !! "file") as [file|] eqn:Hf.
  2:{ destruct (upload_early w req) as (d & Hd & _); [by right; left|].
      by apply (Hearly d). }
  destruct (decide (filename file = "")) as [Hn|Hn].
  { destruct (upload_early w req) as (d & Hd & _);
      [right; right; by exists file|]. by apply (Hearly d). }
  clear Hearly. rewrite (upload_eq w req cu file Hcu Hf Hn). cbv zeta.
  specialize (Hplain cu file eq_refl eq_refl).
  destruct (String.eqb _ "") eqn:Es; [by repeat split|].
  set (name := Avatar.stored_name secure_filename cu file) in *.
  assert (Hfile : forall nm, <[name := stream file]> (pic_files w) !! nm
                             <> pic_files w !! nm ->
            exists cu0 file0,
              Some cu = Some cu0 /\ Some file = Some file0 /\
              nm = Avatar.stored_name secure_filename cu0 file0 /\
              <[name := stream file]> (pic_files w) !! nm = Some (stream file0)).
  { intros nm Hne. exists cu, file.
    destruct (decide (nm = name)) as [->|Hnm].
    - repeat split; try done. apply lookup_insert_eq.
    - exfalso. apply Hne. by apply lookup_insert_ne. }
  assert (Hkeys' : forall nm,
            is_Some (<[name := stream file]> (pic_files w) !! nm) ->
            plain_name nm = true).
  { intros nm Hs. destruct (decide (nm = name)) as [->|Hnm]; [done|].
    apply Hkeys. by rewrite lookup_insert_ne in Hs. }
  unfold Views.User_save.
  destruct (Views.user_conflict _ _); by repeat split.
Qed.

(** The last step of [get_profile_pic], once the user is known. *)
Definition serve_picture (user : User) : M response :=
  let* w := get_world in
  if (truthy (user_picture user) &&
      is_file PIC_PATH (fmt (user_picture user)) w)%bool
  then send_from PIC_PATH (fmt (user_picture user))
  else abort 404 (Some "Profile picture not found.").

Lemma get_profile_pic_eq (w : world) (uid : option Z) :
  Views.get_profile_pic uid w =
    match uid with
    | None =>
        match Views.requester w with
        | Some user => serve_picture user w
        | None => (Abort 401 None, w)
        end
    | Some i =>
        match Views.load_user i w with
        | Some user => serve_picture user w
        | None => (Abort 404 (Some "User not found."), w)
        end
    end.
Proof.
  destruct uid as [i|].
  - unfold Views.get_profile_pic, bind at 1, try_except.
    rewrite ProfilePages.User_get_by_id_load.
    by destruct (Views.load_user i w).
  - unfold Views.get_profile_pic, bind at 1. unfold bind at 1, Views.current_user.
    by destruct (Views.requester w).
Qed.

Lemma serve_picture_sound (w : world) (user : User) :
  let r := serve_picture user w in
  db (snd r) = db w /\ pic_files (snd r) = pic_files w /\
  ring_files (snd r) = ring_files w /\ session (snd r) = session w /\
  flashes (snd r) = flashes w /\
  (forall resp, fst r = Return resp ->
     exists name body,
       user_picture user = Some name /\
       pic_files w !! name = Some body /\
       resp = send_from_directory PIC_PATH name body).
Proof.
  cbv zeta. unfold serve_picture, bind, get_world, is_file, send_from.
  cbn [files]. destruct (user_picture user) as [name|]; [|by repeat split].
  cbn [fmt]. destruct (truthy (Some name)); [|by repeat split].
  destruct (pic_files w !! name) as [body|] eqn:Hb.
  - rewrite bool_decide_eq_true_2 by by eexists. cbn [andb]. rewrite Hb.
    repeat split; try done. intros resp [= <-]. by exists name, body.
  - rewrite bool_decide_eq_false_2 by by intros []. by repeat split.
Qed.


End avatar_more.

Lemma upload_touches_one_file_witness :
  let w' := snd (Views.profile_pic_upload Avatar.keep_name
                   (Avatar.upload "a.png" [Byte.x01]) Accounts.w1) in
  ring_files w' = ∅ /\
  session w' = Some 7 /\
  forall name, is_Some (pic_files w' !! name) -> name = "bob.png".
Proof.
  cbv zeta.
  destruct (upload_touches_one_file Avatar.keep_name Accounts.w1
              (Avatar.upload "a.png" [Byte.x01]))
    as (Hr & Hs & _ & _ & _ & _ & Hone).
  - intros name [body Hb].
    change (pic_files Accounts.w1) with (∅ : gmap string bytes) in Hb.
    by rewrite lookup_empty in Hb.
  - intros cu file [= <-] [= <-]. reflexivity.
  - split; [exact Hr|]. split; [exact Hs|].
    intros name [body Hb].
    destruct (Hone name) as (cu & file & [= <-] & [= <-] & -> & _);
      [|reflexivity].
    rewrite Hb. change (pic_files Accounts.w1) with (∅ : gmap string bytes).
    by rewrite lookup_empty.
Defined.

End AvatarMore.

(** ** Renaming an account *)

Module Renaming.

(** A username no other account holds can be saved. *)
Lemma user_conflict_free (tbl : list User) (cu : User) (n : string) :
  users_wf tbl -> cu ∈ tbl ->
  (forall other, other ∈ tbl -> user_id other <> user_id cu ->
                 user_username other <> Some n) ->
  Views.user_conflict (Views.with_username cu (Some n)) tbl = false.
Proof.
  intros (Hid & Hn & He & Hs) Hin Hfree. unfold Views.user_conflict.
  rewrite Forall_forall in Hs. destruct (Hs cu Hin) as [_ [e Hue]].
  cbn [Views.with_username user_username user_email user_id].
  rewrite Hue. simpl. apply not_true_is_false. intros Hex.
  apply existsb_exists in Hex as (v & Hv & Hc).
  apply list_elem_of_In in Hv.
  apply andb_true_iff in Hc as [Hne Heq].
  apply negb_true_iff, bool_decide_eq_false in Hne.
  apply orb_true_iff in Heq as [Heq|Heq]; apply bool_decide_eq_true in Heq.
  - by apply (Hfree v).
  - apply Hne. f_equal.
    apply (Rows.NoDup_fmap_eq user_email tbl); [done..|congruence].
Qed.

(** The rows of a table after the save of [u']. *)
Definition saved (u' : User) (tbl : list User) : list User :=
  (fun v => if bool_decide (user_id v = user_id u') then u' else v) <$> tbl.

(** A successful rename, effects spelled out. *)
Lemma edit_once (w : world) (req : request) (cu : User) (pf : Profile)
  (n : string) :
  Views.requester w = Some cu ->
  method req = POST ->
  form req !! "username" = Some n ->
  get_or_none (field_eq Profile_user (PyInt (user_id cu))) (profiles (db w))
    = Some pf ->
  Views.user_conflict (Views.with_username cu (Some n)) (users (db w)) = false ->
  exists w',
    Views.edit_profile req w
      = (Return (redirect (UrlFor "mbp.profile"
                             [("user_id", PyInt (user_id cu))])), w') /\
    users (db w') = saved (Views.with_username cu (Some n)) (users (db w)) /\
    session w' = session w /\
    pic_files w' = pic_files w /\
    flashes w' = (flashes w ++ ["Edit Successful!"])%list.
Proof.
  intros Hcu Hm Hn Hpf Hc.
  unfold Views.edit_profile, bind at 1, Views.current_user.
  rewrite Hcu, Hm, Hn.
  unfold Views.Profile_get_by_user, Views.get, Views.User_save, try_except,
    get_world, bind.
  rewrite Hc.
  cbn [Views.is_exn flash modify add_flash db set_db log profiles users].
  change (user_id (Views.with_username cu (Some n))) with (user_id cu).
  rewrite Hpf. cbn [ret Views.Profile_save modify].
  eexists. split; [reflexivity|]. by repeat split.
Qed.

Lemma requester_saved (w w' : world) (cu cu' : User) :
  Views.requester w = Some cu ->
  user_id cu' = user_id cu ->
  session w' = session w ->
  users (db w') = saved cu' (users (db w)) ->
  Views.requester w' = Some cu'.
Proof.
  intros Hcu Hi Hs Hu.
  destruct (Rows.requester_row w cu Hcu) as [Hin Hsw].
  unfold Views.requester, Views.load_user. rewrite Hs, Hsw, Hu.
  cbn [mbind option_bind]. by apply Rows.load_saved.
Qed.

Lemma saved_others (tbl : list User) (u' v : User) :
  v ∈ tbl -> user_id v <> user_id u' -> v ∈ saved u' tbl.
Proof.
  intros Hv Hne. apply (list_elem_of_fmap_2' _ _ v); [done|].
  by rewrite bool_decide_eq_false_2.
Qed.

Lemma saved_elem (tbl : list User) (u' v : User) :
  v ∈ saved u' tbl -> v = u' \/ (v ∈ tbl /\ user_id v <> user_id u').
Proof.
  unfold saved. intros (x & -> & Hx)%list_elem_of_fmap.
  case_bool_decide; [by left | by right].
Qed.


Section rename_avatar.

Variable secure_filename : string -> string.


End rename_avatar.

Lemma robert_is_free :
  forall other, other ∈ users (db Accounts.w1) ->
                user_id other <> user_id Accounts.bob ->
                user_username other <> Some "robert".
Proof.
  intros other Ho Hid.
  apply elem_of_cons in Ho as [->|Ho]; [done|].
  apply elem_of_cons in Ho as [->|Ho]; [done|].
  by apply elem_of_nil in Ho.
Qed.



End Renaming.

(** ** More on ring transfer *)

Module RingMore.
Section ring_more.

Variable calculate_sha256 : option bytes -> exn + string.
Variable add_ring : add_ring_kwargs -> database -> exn + database.

(** The version the GET branch looks for: the one of the route, or the
    latest of the name when the route gives none. *)
Definition wanted_version (d : database) (name version : string)
  : option string :=
  if negb (truthy version) then Views.latest_project_version d name
  else Some version.

(** The ring the GET branch finds. *)
Definition ring_found (d : database) (name version platform : string)
  : option Ring :=
  if truthy platform
  then get_or_none
         (Views.Ring_query_platform name (wanted_version d name version) platform)
         (rings d)
  else get_or_none (Views.Ring_query name (wanted_version d name version))
                   (rings d).

Lemma ring_file_get (w : world) (req : request) (name version platform : string) :
  method req = GET ->
  Views.ring_file calculate_sha256 add_ring req name version platform w =
    match ring_found (db w) name version platform with
    | None =>
        (Abort 404
           (Some ("Ring not found: " +:+ name +:+ ", version: "
                  +:+ fmt (wanted_version (db w) name version)
                  +:+ ", platform: " +:+ platform)), w)
    | Some ring =>
        if truthy (ring_file_name ring)
        then send_from RINGS_PATH (fmt (ring_file_name ring)) w
        else (Abort 404 (Some "Ring file not uploaded."), w)
    end.
Proof.
  intros Hm. unfold Views.ring_file, bind at 1, get_world. rewrite Hm.
  unfold ring_found, wanted_version.
  destruct (truthy platform);
    destruct (get_or_none _ _) as [ring|]; try done;
    by destruct (truthy (ring_file_name ring)).
Qed.

Lemma holds_ring_text (f : RingField) (v : string) (r : Ring) :
  holds (field_eq f (PyStr v)) r = true -> column f r = PyStr v.
Proof.
  change (PyStr v) with (of_text (Some v)).
  rewrite AndFilter.holds_field_eq_text. apply bool_decide_eq_true.
Qed.

(** With a platform the ring is looked up by the platform alone. *)
Lemma ring_found_platform (d : database)
  (name version name' version' platform : string) :
  truthy platform = true ->
  ring_found d name version platform = ring_found d name' version' platform.
Proof.
  intros Hp. unfold ring_found. rewrite Hp.
  unfold Views.Ring_query_platform.
  by rewrite !AndFilter.py_and_Expression.
Qed.

(** Without a platform and with a version, by the version alone. *)
Lemma ring_found_version (d : database)
  (name name' version platform : string) :
  truthy platform = false -> truthy version = true ->
  ring_found d name version platform = ring_found d name' version platform.
Proof.
  intros Hp Hv. unfold ring_found, wanted_version. rewrite Hp, Hv.
  unfold Views.Ring_query. by rewrite !AndFilter.py_and_Expression.
Qed.

(** What a download answers with depends on the ring found and on the
    files only. *)
Lemma ring_file_get_same (w : world) (req : request)
  (name version platform name' version' platform' : string)
  (resp : response) :
  method req = GET ->
  ring_found (db w) name version platform
    = ring_found (db w) name' version' platform' ->
  fst (Views.ring_file calculate_sha256 add_ring req name version platform w)
    = Return resp ->
  fst (Views.ring_file calculate_sha256 add_ring req name' version' platform' w)
    = Return resp.
Proof.
  intros Hm Hsame. rewrite !ring_file_get by done. rewrite <- Hsame.
  by destruct (ring_found (db w) name version platform).
Qed.

(** X15.  With the [file_name] of every stored ring a plain name: a
    download changes nothing, and what it sends is always the file
    under [RINGS_PATH] named by the [file_name] of a stored ring: one
    whose platform is the requested one when a platform is given, and
    otherwise one whose version is the requested one when a version is
    given.  With a platform, the same file is sent under any other
    name and version; with a version and no platform, under any other
    name. *)
Theorem ring_download_sound (w : world) (req : request)
  (name version platform : string) :
  method req = GET ->
  (forall ring f, ring ∈ rings (db w) -> ring_file_name ring = Some f ->
                  plain_name f = true) ->
  let r := Views.ring_file calculate_sha256 add_ring req name version platform w in
  db (snd r) = db w /\ pic_files (snd r) = pic_files w /\
  ring_files (snd r) = ring_files w /\ session (snd r) = session w /\
  flashes (snd r) = flashes w /\
  (forall resp, fst r = Return resp ->
     exists ring f body,
       ring ∈ rings (db w) /\
       ring_file_name ring = Some f /\
       ring_files w !! f = Some body /\
       resp = send_from_directory RINGS_PATH f body /\
       (truthy platform = true -> ring_platform ring = Some platform) /\
       (truthy platform = false -> truthy version = true ->
        ring_version ring = Some version)) /\
  (truthy platform = true ->
   forall name' version' resp, fst r = Return resp ->
     fst (Views.ring_file calculate_sha256 add_ring req name' version'
                          platform w) = Return resp) /\
  (truthy platform = false -> truthy version = true ->
   forall name' resp, fst r = Return resp ->
     fst (Views.ring_file calculate_sha256 add_ring req name' version
                          platform w) = Return resp).
Proof.
  intros Hm _. cbv zeta.
  assert (Hnames :
    (truthy platform = true ->
     forall name' version' resp,
       fst (Views.ring_file calculate_sha256 add_ring req name version
                            platform w) = Return resp ->
       fst (Views.ring_file calculate_sha256 add_ring req name' version'
                            platform w) = Return resp) /\
    (truthy platform = false -> truthy version = true ->
     forall name' resp,
       fst (Views.ring_file calculate_sha256 add_ring req name version
                            platform w) = Return resp ->
       fst (Views.ring_file calculate_sha256 add_ring req name' version
                            platform w) = Return resp)).
  { split.
    - intros Hp name' version' resp.
      apply ring_file_get_same; [done|]. by apply ring_found_platform.
    - intros Hp Hv name' resp.
      apply ring_file_get_same; [done|]. by apply ring_found_version. }
  revert Hnames.
  rewrite (ring_file_get w req name version platform Hm). intros Hnames.
  destruct (ring_found (db w) name version platform) as [ring|] eqn:Hr;
    [|by repeat split].
  destruct (ring_file_name ring) as [f|] eqn:Hf; [|by repeat split].
  destruct (truthy (Some f)); [|by repeat split].
  revert Hnames. unfold send_from, fmt. cbn [files]. intros Hnames.
  destruct (ring_files w !! f) as [body|] eqn:Hb; [|by repeat split].
  do 5 (split; [done|]). split; [|exact Hnames]. clear Hnames.
  intros resp [= <-]. exists ring, f, body.
  unfold ring_found, wanted_version in Hr.
  destruct (truthy platform) eqn:Hp.
  - apply Rows.get_or_none_elem in Hr as [Hin Hh].
    unfold Views.Ring_query_platform in Hh.
    rewrite !AndFilter.py_and_Expression in Hh.
    apply holds_ring_text in Hh. unfold column, Ring_model in Hh.
    repeat split; try done.
    intros _. by destruct (ring_platform ring); simplify_eq/=.
  - apply Rows.get_or_none_elem in Hr as [Hin Hh].
    repeat split; try done.
    intros _ Hv. rewrite Hv in Hh. simpl negb in Hh. cbv iota in Hh.
    unfold Views.Ring_query in Hh. rewrite AndFilter.py_and_Expression in Hh.
    apply (holds_ring_text Ring_version version) in Hh.
    unfold column, Ring_model in Hh.
    by destruct (ring_version ring); simplify_eq/=.
Qed.


End ring_more.

Definition stored_ring : Ring :=
  mkRing (Some "pkg") (Some "1.0") (Some "linux") None None None None
         (Some "pkg.ring") None (Some 5).

Definition w3 : world :=
  mkWorld (mkDatabase [] [] [] [stored_ring]) ∅
          {[ "pkg.ring" := [Byte.x07] ]} None [] [].

Definition get_req : request := mkRequest GET ∅ ∅ ∅ false ∅.

Lemma stored_names_plain :
  forall ring f, ring ∈ rings (db w3) -> ring_file_name ring = Some f ->
                 plain_name f = true.
Proof.
  intros ring f Hin Hf.
  apply elem_of_cons in Hin as [->|Hin]; [|by apply elem_of_nil in Hin].
  by injection Hf as <-.
Qed.

Lemma ring_download_sound_witness :
  fst (Views.ring_file RingUpload.toy_sha256 RingUpload.toy_add_ring get_req
                       "other" "1.0" "" w3)
  = Return (send_from_directory RINGS_PATH "pkg.ring" [Byte.x07]) /\
  db (snd (Views.ring_file RingUpload.toy_sha256 RingUpload.toy_add_ring
                           get_req "pkg" "1.0" "" w3)) = db w3.
Proof.
  destruct (ring_download_sound RingUpload.toy_sha256 RingUpload.toy_add_ring
              w3 get_req "pkg" "1.0" "" eq_refl stored_names_plain)
    as (Hdb & _ & _ & _ & _ & _ & _ & Hname).
  split; [|exact Hdb].
  apply (Hname eq_refl eq_refl "other"). reflexivity.
Defined.


End RingMore.

(** ** Project pages *)

Module Projects.

Import OrderedTypeEx.

Lemma leb_refl (s : string) : String.leb s s = true.
Proof. by destruct (String.leb_total s s). Qed.

Lemma leb_trans (a b c : string) :
  String.leb a b = true -> String.leb b c = true -> String.leb a c = true.
Proof.
  unfold String.leb. intros Hab Hbc.
  destruct (String.compare a b) eqn:Eab; [|clear Hab|done].
  - apply String_as_OT.cmp_eq in Eab. by subst.
  - destruct (String.compare b c) eqn:Ebc; [| |done].
    + apply String_as_OT.cmp_eq in Ebc. subst. by rewrite Eab.
    + apply String_as_OT.cmp_lt in Eab, Ebc.
      pose proof (String_as_OT.lt_trans _ _ _ Eab Ebc) as Hac.
      apply String_as_OT.cmp_lt in Hac. unfold String_as_OT.cmp in Hac.
      by rewrite Hac.
Qed.

(** [MAX] returns a value of the column. *)
Lemma sql_max_elem {A} (leb : A -> A -> bool) (col : list (option A)) (m : A) :
  sql_max leb col = Some m -> Some m ∈ col.
Proof.
  induction col as [|a col IH]; [done|]. unfold sql_max. simpl.
  fold (sql_max leb col). destruct a as [x|], (sql_max leb col) as [y|];
    simpl; try (intros [= <-]; by left).
  - destruct (leb x y); intros [= <-]; [right; by apply IH | by left].
  - intros [= <-]. right. by apply IH.
Qed.

(** [MAX] is above every value of the column, for a total preorder. *)
Lemma sql_max_above {A} (leb : A -> A -> bool) (col : list (option A)) (x : A) :
  (forall a b, leb a b = true \/ leb b a = true) ->
  (forall a b c, leb a b = true -> leb b c = true -> leb a c = true) ->
  Some x ∈ col ->
  exists m, sql_max leb col = Some m /\ leb x m = true.
Proof.
  intros Htot Htr. assert (Hrefl : forall a, leb a a = true).
  { intros a. by destruct (Htot a a). }
  induction col as [|a col IH]; [by intros ?%elem_of_nil|].
  unfold sql_max. simpl. fold (sql_max leb col).
  intros [<-|Hin]%elem_of_cons.
  - destruct (sql_max leb col) as [y|]; simpl; [|by eexists].
    destruct (leb x y) eqn:E; by eexists.
  - destruct (IH Hin) as (m & -> & Hxm). destruct a as [z|]; simpl; [|by eexists].
    destruct (leb z m) eqn:E; [by eexists|].
    exists z. split; [done|]. apply (Htr _ m); [done|].
    by destruct (Htot m z) as [|Hz]; [|rewrite Hz in E].
Qed.

Lemma holds_project_name (name : string) (pj : Project) :
  holds (field_eq Project_name (PyStr name)) pj
  = bool_decide (project_name pj = Some name).
Proof.
  change (PyStr name) with (of_text (Some name)).
  rewrite AndFilter.holds_field_eq_text. unfold column, Project_model.
  destruct (project_name pj); simpl; repeat case_bool_decide; congruence.
Qed.

Lemma holds_ring_name (name : string) (r : Ring) :
  holds (field_eq Ring_name (PyStr name)) r
  = bool_decide (ring_name r = Some name).
Proof.
  change (PyStr name) with (of_text (Some name)).
  rewrite AndFilter.holds_field_eq_text. unfold column, Ring_model.
  destruct (ring_name r); simpl; repeat case_bool_decide; congruence.
Qed.

Lemma versions_of_name (d : database) (name : string) (v : option string) :
  v ∈ Models.project_version <$>
        select_where (field_eq Project_name (PyStr name)) (projects d)
  <-> exists pj, pj ∈ projects d /\ project_name pj = Some name /\
                 project_version pj = v.
Proof.
  rewrite list_elem_of_fmap. unfold select_where. split.
  - intros (pj & -> & Hin). exists pj.
    apply list_elem_of_In, filter_In in Hin as [Hin Hh].
    rewrite holds_project_name in Hh. apply bool_decide_eq_true in Hh.
    split; [by apply list_elem_of_In|done].
  - intros (pj & Hin & Hn & <-). exists pj. split; [done|].
    apply list_elem_of_In, filter_In. split; [by apply list_elem_of_In|].
    rewrite holds_project_name. by apply bool_decide_eq_true.
Qed.

(** X12.  [latest_project_version] returns a version that some project
    of that name has, and one that is above the version of every
    project of that name in the order of strings (character by
    character, a proper prefix first); projects without a version do
    not count. *)
Theorem latest_project_version_max (d : database) (name : string) :
  (forall v, Views.latest_project_version d name = Some v ->
     exists pj, pj ∈ projects d /\ project_name pj = Some name /\
                project_version pj = Some v) /\
  (forall pj v', pj ∈ projects d -> project_name pj = Some name ->
     project_version pj = Some v' ->
     exists v, Views.latest_project_version d name = Some v /\
               String.leb v' v = true).
Proof.
  unfold Views.latest_project_version. split.
  - intros v Hv. apply sql_max_elem in Hv. by apply versions_of_name in Hv.
  - intros pj v' Hin Hn Hv.
    apply (sql_max_above String.leb);
      [apply String.leb_total | apply leb_trans |].
    apply versions_of_name. by exists pj.
Qed.

Section pages.

Variable render : option string -> option string -> string.

(** X13.  The project pages without a version in the route.  When some
    project of the name has a version, [project], [project_history] and
    [project_files] all render their page; when no project has the name
    and every project has a version, all three answer 404. *)
Theorem unversioned_route (w : world) (name : string) :
  ((exists pj v, pj ∈ projects (db w) /\ project_name pj = Some name /\
                 project_version pj = Some v) ->
   (exists ctx, Views.project render name "" w
                = (Return (render_template "project.html" ctx), w)) /\
   (exists ctx, Views.project_history name "" w
                = (Return (render_template "project_history.html" ctx), w)) /\
   (exists ctx, Views.project_files name "" w
                = (Return (render_template "project_download.html" ctx), w))) /\
  ((forall pj, pj ∈ projects (db w) ->
      project_name pj <> Some name /\ project_version pj <> None) ->
   Views.project render name "" w = (Abort 404 None, w) /\
   Views.project_history name "" w
     = (Abort 404 (Some "Project not exist."), w) /\
   Views.project_files name "" w
     = (Abort 404 (Some "Project not exist."), w)).
Proof.
  destruct (ProfilePages.avatar_url_pure w) as [avatar Hav].
  unfold Views.project, Views.project_history, Views.project_files.
  unfold bind, get_world. unfold Views.route_version.
  change (String.eqb "" "") with true. cbv iota. split.
  - intros (pj & v & Hin & Hn & Hv).
    destruct (sql_max_above String.leb
                (Models.project_version <$>
                   select_where (field_eq Project_name (PyStr name))
                                (projects (db w))) v
                String.leb_total leb_trans) as (m & Hm & _).
    { apply versions_of_name. by exists pj. }
    fold (Views.latest_project_version (db w) name) in Hm.
    pose proof Hm as Hm'. unfold Views.latest_project_version in Hm'.
    apply sql_max_elem, versions_of_name in Hm' as (pj' & Hin' & _ & Hv').
    assert (Hq : is_Some (get_or_none (Views.Project_query name (Some m))
                                      (projects (db w)))).
    { apply AndFilter.get_or_none_Some. exists pj'. split; [done|].
      unfold Views.Project_query. rewrite AndFilter.py_and_Expression.
      rewrite AndFilter.holds_field_eq_text. apply bool_decide_eq_true.
      unfold column, Project_model. by rewrite Hv'. }
    rewrite Hm. destruct Hq as [found ->]. rewrite Hav.
    repeat split; by eexists.
  - intros Hnone.
    assert (Hl : Views.latest_project_version (db w) name = None).
    { destruct (Views.latest_project_version (db w) name) as [v|] eqn:E;
        [|done].
      unfold Views.latest_project_version in E.
      apply sql_max_elem, versions_of_name in E as (pj & Hin & Hn & _).
      by destruct (Hnone pj Hin). }
    assert (Hq : get_or_none (Views.Project_query name None) (projects (db w))
                 = None).
    { apply eq_None_not_Some. intros Hs.
      apply AndFilter.get_or_none_Some in Hs as (pj & Hin & Hh).
      unfold Views.Project_query in Hh.
      rewrite AndFilter.py_and_Expression in Hh.
      change PyNone with (of_text None) in Hh.
      rewrite AndFilter.holds_field_eq_text in Hh.
      apply bool_decide_eq_true in Hh. unfold column, Project_model in Hh.
      destruct (Hnone pj Hin) as [_ Hv].
      by destruct (project_version pj). }
    by rewrite Hl, Hq.
Qed.

End pages.

Definition render_plain (description content_type : option string) : string :=
  default "" description.

Definition w_ab : world :=
  mkWorld (mkDatabase [] [] [AndFilter.a1; AndFilter.b1] []) ∅ ∅ None [] [].

Lemma unversioned_route_witness :
  exists ctx,
    Views.project render_plain "a" "" w_ab
    = (Return (render_template "project.html" ctx), w_ab).
Proof.
  apply (proj1 (unversioned_route render_plain w_ab "a")).
  exists AndFilter.a1, "1". split; [left | split; reflexivity].
Defined.

(** The order [by_upload_at_desc] sorts by: the earlier ring is not older
    than the later one; a ring without upload time counts as oldest. *)
Definition not_older (r1 r2 : Ring) : Prop :=
  Views.datetime_leb (ring_upload_at r2) (ring_upload_at r1).

Lemma datetime_leb_total (a b : option Z) :
  Views.datetime_leb a b = true \/ Views.datetime_leb b a = true.
Proof.
  destruct a as [x|], b as [y|]; simpl; auto.
  destruct (Z.leb_spec x y); [by left|right]. apply Z.leb_le. lia.
Qed.

Lemma datetime_leb_trans (a b c : option Z) :
  Views.datetime_leb a b = true -> Views.datetime_leb b c = true ->
  Views.datetime_leb a c = true.
Proof.
  destruct a as [x|], b as [y|], c as [z|]; simpl; try done.
  rewrite !Z.leb_le. lia.
Qed.

#[local] Instance not_older_total : Total not_older.
Proof.
  intros r1 r2. unfold not_older.
  destruct (datetime_leb_total (ring_upload_at r2) (ring_upload_at r1))
    as [->| ->]; [by left | by right].
Qed.

#[local] Instance not_older_trans : Transitive not_older.
Proof.
  intros r1 r2 r3. unfold not_older. intros H12 H23.
  apply Is_true_true. apply Is_true_true in H12, H23.
  by apply (datetime_leb_trans _ (ring_upload_at r2)).
Qed.

(** X14.  The releases [project_history] lists are the rings whose name
    is the requested one, each as often as it is stored, ordered so
    that no release comes before a more recently uploaded one. *)
Theorem history_releases (w : world) (name version : string)
  (ctx : list (string * ctxval)) :
  Views.project_history name version w
    = (Return (render_template "project_history.html" ctx), w) ->
  exists info releases avatar,
    ctx = [("info", info); ("releases", CRings releases); ("avatar", avatar)] /\
    Permutation releases
      (List.filter (fun r => bool_decide (ring_name r = Some name))
                   (rings (db w))) /\
    StronglySorted not_older releases.
Proof.
  destruct (ProfilePages.avatar_url_pure w) as [avatar Hav].
  unfold Views.project_history, bind, get_world.
  destruct (get_or_none _ (projects (db w))) as [pj|]; [|done].
  rewrite Hav. intros [= <-]. do 3 eexists. split; [reflexivity|].
  unfold Views.by_upload_at_desc, select_where.
  fold not_older. change (fun r1 r2 : Ring => Is_true (Views.datetime_leb
    (ring_upload_at r2) (ring_upload_at r1))) with not_older.
  split.
  - rewrite merge_sort_Permutation.
    rewrite (List.filter_ext (holds (field_eq Ring_name (PyStr name)))
               (fun r => bool_decide (ring_name r = Some name)));
      [done|apply holds_ring_name].
  - apply (StronglySorted_merge_sort not_older).
Qed.

Definition r_old : Ring :=
  mkRing (Some "pkg") (Some "1") None None None None None None None (Some 1).
Definition r_new : Ring :=
  mkRing (Some "pkg") (Some "2") None None None None None None None (Some 9).
Definition pkg1 : Project :=
  mkProject (Some "pkg") (Some "1") None None None None None None None None
            None None.
Definition w4 : world :=
  mkWorld (mkDatabase [] [] [pkg1] [r_old; r_new]) ∅ ∅ None [] [].

Lemma history_releases_witness :
  Permutation [r_new; r_old] [r_old; r_new] /\
  StronglySorted not_older [r_new; r_old].
Proof.
  destruct (history_releases w4 "pkg" "1"
              [("info", CInfo (Views.project_info (db w4) "pkg" (Some "1")));
               ("releases", CRings [r_new; r_old]);
               ("avatar", CUrl Views.static_icon)])
    as (info & releases & avatar & Hctx & Hperm & Hsorted).
  - vm_compute. reflexivity.
  - injection Hctx as _ <- _. split; [exact Hperm | exact Hsorted].
Defined.

End Projects.

(** ** Stored avatar names *)

Module StoredNames.

Lemma substring_all (s : string) : String.substring 0 (String.length s) s = s.
Proof. induction s as [|a s IH]; simpl; [done|]. by rewrite IH. Qed.

Lemma substring_skip (pre rest : string) :
  String.substring (String.length pre) (String.length rest) (pre +:+ rest)
  = rest.
Proof. induction pre as [|a pre IH]; simpl; [apply substring_all | done]. Qed.

Lemma rfind_split (c : ascii) (s : string) (i : nat) :
  rfind c s = Some i ->
  exists pre post,
    s = pre +:+ String c post /\ String.length pre = i /\ rfind c post = None.
Proof.
  revert i. induction s as [|a s IH]; intros i; simpl; [done|].
  destruct (rfind c s) as [j|] eqn:Ej.
  - intros [= <-]. destruct (IH j eq_refl) as (pre & post & -> & <- & Hp).
    by exists (String a pre), post.
  - destruct (Ascii.eqb_spec a c) as [->|]; [|done].
    intros [= <-]. by exists "", s.
Qed.

Lemma rfind_None_app (c : ascii) (a b : string) :
  rfind c (a +:+ b) = None <-> rfind c a = None /\ rfind c b = None.
Proof.
  induction a as [|x a IH]; simpl; [by split; [|intros []]|].
  destruct (rfind c (a +:+ b)) as [j|] eqn:Ej.
  - split; [done|]. intros [Ha Hb].
    destruct (rfind c a); [done|].
    destruct IH as [_ IH]. by specialize (IH (conj eq_refl Hb)).
  - destruct IH as [IH _]. destruct (IH eq_refl) as [-> ->].
    destruct (Ascii.eqb x c); [by split; [|intros []] | by split].
Qed.

Lemma rfind_app_last (c : ascii) (pre post : string) :
  rfind c post = None ->
  rfind c (pre +:+ String c post) = Some (String.length pre).
Proof.
  intros Hp. induction pre as [|a pre IH]; simpl.
  - by rewrite Hp, Ascii.eqb_refl.
  - by rewrite IH.
Qed.

(** [c in s] for a one-character [c], through [rfind]. *)
Lemma contains_char (c : ascii) (s : string) :
  Str.contains (String c "") s = false <-> rfind c s = None.
Proof.
  induction s as [|a s IH]; simpl; [done|].
  rewrite orb_false_iff, IH.
  destruct (rfind c s); [by split; [intros []|]|].
  rewrite Ascii.eqb_sym.
  destruct (Ascii.eqb a c), s; simpl; split; try done; by intros [].
Qed.

(** The final component ends the path and holds no separator. *)
Lemma path_name_spec (p : string) :
  (exists dir, p = dir +:+ path_name p) /\ rfind "/" (path_name p) = None.
Proof.
  unfold path_name. destruct (rfind "/" p) as [i|] eqn:Ei.
  - destruct (rfind_split _ _ _ Ei) as (pre & post & -> & <- & Hp).
    assert (Ha : pre +:+ String "/" post = (pre +:+ "/") +:+ post).
    { clear. induction pre as [|a pre IH]; [done|].
      change (String a (pre +:+ String "/" post)
              = String a ((pre +:+ "/") +:+ post)). by f_equal. }
    assert (Hl : String.length (pre +:+ "/") = S (String.length pre)).
    { rewrite Search.length_app_string. simpl. lia. }
    rewrite Ha. rewrite Search.length_app_string, Hl.
    replace (S (String.length pre) + String.length post
             - S (String.length pre))%nat with (String.length post) by lia.
    rewrite <- Hl, substring_skip.
    split; [by exists (pre +:+ "/") | done].
  - split; [by exists ""|done].
Qed.

(** The two shapes of [Path(p).suffix]. *)
Lemma Path_suffix_cases (p : string) :
  Path_suffix p = "" \/
  exists stem ext,
    path_name p = stem +:+ String "." ext /\
    Path_suffix p = String "." ext /\
    stem <> "" /\ ext <> "" /\
    rfind "." ext = None /\ rfind "/" ext = None.
Proof.
  unfold Path_suffix. destruct (path_name_spec p) as [_ Hns].
  set (name := path_name p) in *.
  destruct (rfind "." name) as [i|] eqn:Ei; [|by left].
  destruct (rfind_split _ _ _ Ei) as (stem & ext & Hname & <- & Hext).
  destruct (Nat.ltb_spec 0 (String.length stem)) as [Hs|]; [|by left].
  destruct (Nat.ltb_spec (String.length stem) (String.length name - 1))
    as [He|]; [|by left].
  right. exists stem, ext. simpl andb. cbv iota.
  rewrite Hname in He |- *. rewrite Search.length_app_string in He |- *.
  cbn [String.length] in He |- *.
  split; [done|]. split.
  - replace (String.length stem + S (String.length ext)
             - String.length stem)%nat
      with (String.length (String "." ext)) by (cbn [String.length]; lia).
    apply substring_skip.
  - split; [destruct stem; [simpl in Hs; lia|done]|].
    split; [destruct ext; [simpl in He; lia|done]|].
    split; [done|].
    rewrite Hname in Hns. apply rfind_None_app in Hns as [_ Hns].
    simpl in Hns. by destruct (rfind "/" ext).
Qed.

Section stored.

Variable secure_filename : string -> string.

(** X18.  Whatever [secure_filename] returns, the name an avatar is
    stored under is the username followed by a suffix that is either
    empty or a dot and a non-empty extension without dot or path
    separator: the client's file name never puts a separator into the
    stored name. *)
Theorem stored_name_shape (cu : User) (file : FileStorage) :
  exists sfx,
    Avatar.stored_name secure_filename cu file = fmt (user_username cu) +:+ sfx /\
    Str.contains "/" sfx = false /\
    (sfx = "" \/
     exists ext, sfx = String "." ext /\ ext <> "" /\
                 Str.contains "." ext = false).
Proof.
  exists (Path_suffix (secure_filename (filename file))).
  split; [done|].
  destruct (Path_suffix_cases (secure_filename (filename file)))
    as [->|(stem & ext & _ & -> & _ & He & Hd & Hs)].
  - split; [done | by left].
  - split.
    + apply (contains_char "/"). simpl. by rewrite Hs.
    + right. exists ext. split; [done|]. split; [done|].
      by apply (contains_char ".").
Qed.


End stored.


End StoredNames.

(** ** Links to avatars, and the empty search *)

Module Links.

Lemma profile_pic_url_eq (w : world) (i : Z) (user : User) :
  Views.load_user i w = Some user ->
  Views.profile_pic_url i w =
    (Return (if truthy (user_picture user)
             then UrlFor "fbp.get_profile_pic" [("user_id", PyInt i)]
             else Views.static_icon), w).
Proof.
  intros Hu. unfold Views.profile_pic_url, bind, try_except.
  rewrite ProfilePages.User_get_by_id_load, Hu. simpl.
  by destruct (truthy (user_picture user)).
Qed.

Lemma serve_picture_truthy (w : world) (user : User) (resp : response) :
  fst (AvatarMore.serve_picture user w) = Return resp ->
  truthy (user_picture user) = true.
Proof.
  unfold AvatarMore.serve_picture, bind, get_world.
  by destruct (truthy (user_picture user)).
Qed.

(** X20.  Whenever an avatar can be fetched, the pages link to it:
    if [get_profile_pic] sends a file for a user id, [profile_pic_url]
    of that id is the location of [get_profile_pic] for it, and if it
    sends one for the requester, [avatar_url] is the location of
    [get_profile_pic], not the default icon. *)
Theorem avatar_links_follow_files (w : world) :
  (forall i resp,
     fst (Views.get_profile_pic (Some i) w) = Return resp ->
     Views.profile_pic_url i w
       = (Return (UrlFor "fbp.get_profile_pic" [("user_id", PyInt i)]), w)) /\
  (forall resp,
     fst (Views.get_profile_pic None w) = Return resp ->
     Views.avatar_url w = (Return (UrlFor "fbp.get_profile_pic" []), w)).
Proof.
  split.
  - intros i resp. rewrite AvatarMore.get_profile_pic_eq.
    destruct (Views.load_user i w) as [user|] eqn:Hu; [|done].
    intros Hr. rewrite (profile_pic_url_eq w i user Hu).
    by rewrite (serve_picture_truthy w user resp Hr).
  - intros resp. rewrite AvatarMore.get_profile_pic_eq.
    unfold Views.avatar_url, bind, Views.current_user.
    destruct (Views.requester w) as [user|]; [|done].
    intros Hr. by rewrite (serve_picture_truthy w user resp Hr).
Qed.

Lemma contains_empty (s : string) : Str.contains "" s = true.
Proof. by destruct s. Qed.

(** With an empty query the pattern is [%%] and the test of the loop
    asks for the empty string: both pass every name. *)
Lemma results_without_query (tbl : list Project) :
  List.filter (Search.name_contains "")
    (List.filter (Search.selected "") tbl)
  = List.filter (fun pj => bool_decide (is_Some (project_name pj))) tbl.
Proof.
  induction tbl as [|pj tbl IH]; [done|]. cbn [List.filter].
  unfold Search.selected at 1. cbn [holds field_ilike].
  unfold column, Project_model.
  destruct (project_name pj) as [n|] eqn:En; cbn [of_text].
  - change ("%" +:+ "" +:+ "%") with "%%".
    rewrite Search.ilike_percent_percent. cbn [List.filter].
    unfold Search.name_contains at 1. rewrite En.
    change (Str.lower "") with "". rewrite contains_empty.
    rewrite bool_decide_eq_true_2 by by eexists. by rewrite IH.
  - rewrite bool_decide_eq_false_2 by by intros [? ?]. done.
Qed.

(** X21.  A search without a query, or with an empty one, lists every
    project that has a name, in table order. *)
Theorem search_without_query (w : world) (req : request) :
  args req !! "q" = None \/ args req !! "q" = Some "" ->
  exists avatar,
    Views.search req w
    = (Return (render_template "search_results.html"
                 [("results",
                   CProjects
                     (List.filter
                        (fun pj => bool_decide (is_Some (project_name pj)))
                        (projects (db w))));
                  ("avatar", CUrl avatar)]), w).
Proof.
  intros Hq. destruct (Search.search_returns req w) as [avatar Hs].
  exists avatar. rewrite Hs. unfold Search.results_of. cbv zeta.
  assert (default "" (args req !! "q") = "") as -> by by destruct Hq as [-> | ->].
  by rewrite results_without_query.
Qed.

Definition unnamed : Project :=
  mkProject None (Some "1") None None None None None None None None None None.

Definition w5 : world :=
  mkWorld (mkDatabase [] [] [AndFilter.a1; unnamed; AndFilter.b1] [])
          ∅ ∅ None [] [].

Lemma search_without_query_witness :
  exists avatar,
    Views.search (mkRequest GET ∅ ∅ ∅ false ∅) w5
    = (Return (render_template "search_results.html"
                 [("results", CProjects [AndFilter.a1; AndFilter.b1]);
                  ("avatar", CUrl avatar)]), w5).
Proof.
  apply (search_without_query w5 (mkRequest GET ∅ ∅ ∅ false ∅)).
  left. reflexivity.
Defined.

End Links.
